(** * litehtml C API wrapper: a shallow embedding of [litehtml_c.cpp]

    The wrapper bridges a flat C callback table to the virtual
    [document_container] interface of the litehtml engine.  This file
    embeds the wrapper's value marshalling, its accessor layer over the
    engine's descriptors, the [CDocumentContainer] adapter, the document
    lifecycle and the element introspection functions, and proves the
    properties the specification states about them.

    The litehtml engine itself (parsing, layout, hit testing, document
    teardown) is not part of the wrapper: engine entry points are section
    variables, and engine objects are records holding what the wrapper
    reads from them. *)

From Stdlib Require Import ZArith SpecFloat.
From stdpp Require Import gmap strings list.

Open Scope Z_scope.

(** ** C scalars *)

(** [float] is IEEE binary32: 24 bits of precision, exponents below 128. *)
Definition float : Type := spec_float.
Definition float_prec : Z := 24.
Definition float_emax : Z := 128.

Definition float_add : float -> float -> float := SFadd float_prec float_emax.
Definition float_sub : float -> float -> float := SFsub float_prec float_emax.

(** Conversion of an integer constant to [float] ([return 0], [return 16]). *)
Definition float_of_int (z : Z) : float :=
  binary_normalize float_prec float_emax z 0 false.

(** [0.0f], which is also every float member of a value-initialised
    struct ([return {}], [lh_web_color_t zero = {}]). *)
Definition float_zero : float := S754_zero false.

(** [static_cast<int>(n)] for an unsigned size: reduction to 32 bits, read
    as two's complement. *)
Definition static_cast_int (n : Z) : Z :=
  (n + 2 ^ 31) mod 2 ^ 32 - 2 ^ 31.

(** [const char*]: [None] is the null pointer, [Some s] points to the
    NUL-terminated string [s]. *)
Definition c_str : Type := option string.

(** [r ? r : ""] converted to [std::string]. *)
Definition string_or_empty (r : c_str) : string :=
  match r with
  | Some s => s
  | None => EmptyString
  end.

(** [b ? 1 : 0] and [i != 0]. *)
Definition int_of_bool (b : bool) : Z := if b then 1 else 0.
Definition bool_of_int (i : Z) : bool := negb (i =? 0).

(** An engine enumeration (declared in litehtml's headers), seen the way the
    wrapper sees it: through [static_cast] to and from its underlying
    integer. *)
Record enum_value : Type := EnumValue { underlying : Z }.

Definition enum_to_int (e : enum_value) : Z := underlying e.
Definition enum_of_int (i : Z) : enum_value := EnumValue i.

(** ** Native value types (litehtml) *)

Record position : Type := Position {
  position_x : float;
  position_y : float;
  position_width : float;
  position_height : float
}.

Record size : Type := Size {
  size_width : float;
  size_height : float
}.

Record pointF : Type := PointF {
  pointF_x : float;
  pointF_y : float
}.

(** [web_color(r, g, b, a)] leaves [is_current_color] false. *)
Record web_color : Type := WebColor {
  web_color_red : Z;
  web_color_green : Z;
  web_color_blue : Z;
  web_color_alpha : Z;
  web_color_is_current_color : bool
}.

Definition web_color_ctor (r g b a : Z) : web_color :=
  WebColor r g b a false.

Record font_metrics : Type := FontMetrics {
  font_metrics_font_size : float;
  font_metrics_height : float;
  font_metrics_ascent : float;
  font_metrics_descent : float;
  font_metrics_x_height : float;
  font_metrics_ch_width : float;
  font_metrics_draw_spaces : bool;
  font_metrics_sub_shift : float;
  font_metrics_super_shift : float
}.

Record border_radiuses : Type := BorderRadiuses {
  border_radiuses_top_left_x : float;
  border_radiuses_top_left_y : float;
  border_radiuses_top_right_x : float;
  border_radiuses_top_right_y : float;
  border_radiuses_bottom_right_x : float;
  border_radiuses_bottom_right_y : float;
  border_radiuses_bottom_left_x : float;
  border_radiuses_bottom_left_y : float
}.

Record border : Type := Border {
  border_width : float;
  border_style : enum_value;
  border_color : web_color
}.

Record borders : Type := Borders {
  borders_left : border;
  borders_top : border;
  borders_right : border;
  borders_bottom : border;
  borders_radius : border_radiuses
}.

Record media_features : Type := MediaFeatures {
  media_features_type : enum_value;
  media_features_width : float;
  media_features_height : float;
  media_features_device_width : float;
  media_features_device_height : float;
  media_features_color : Z;
  media_features_color_index : Z;
  media_features_monochrome : Z;
  media_features_resolution : float
}.

(** ** Flat C structs ([litehtml_c.h]) *)

Record lh_position_t : Type := LhPosition {
  lh_position_x : float;
  lh_position_y : float;
  lh_position_width : float;
  lh_position_height : float
}.

Record lh_size_t : Type := LhSize {
  lh_size_width : float;
  lh_size_height : float
}.

Record lh_web_color_t : Type := LhWebColor {
  lh_web_color_red : Z;
  lh_web_color_green : Z;
  lh_web_color_blue : Z;
  lh_web_color_alpha : Z;
  lh_web_color_is_current_color : Z
}.

Record lh_font_metrics_t : Type := LhFontMetrics {
  lh_font_metrics_font_size : float;
  lh_font_metrics_height : float;
  lh_font_metrics_ascent : float;
  lh_font_metrics_descent : float;
  lh_font_metrics_x_height : float;
  lh_font_metrics_ch_width : float;
  lh_font_metrics_draw_spaces : Z;
  lh_font_metrics_sub_shift : float;
  lh_font_metrics_super_shift : float
}.

Record lh_border_radiuses_t : Type := LhBorderRadiuses {
  lh_border_radiuses_top_left_x : float;
  lh_border_radiuses_top_left_y : float;
  lh_border_radiuses_top_right_x : float;
  lh_border_radiuses_top_right_y : float;
  lh_border_radiuses_bottom_right_x : float;
  lh_border_radiuses_bottom_right_y : float;
  lh_border_radiuses_bottom_left_x : float;
  lh_border_radiuses_bottom_left_y : float
}.

Record lh_border_t : Type := LhBorder {
  lh_border_width : float;
  lh_border_style : Z;
  lh_border_color : lh_web_color_t
}.

Record lh_borders_t : Type := LhBorders {
  lh_borders_left : lh_border_t;
  lh_borders_top : lh_border_t;
  lh_borders_right : lh_border_t;
  lh_borders_bottom : lh_border_t;
  lh_borders_radius : lh_border_radiuses_t
}.

Record lh_media_features_t : Type := LhMediaFeatures {
  lh_media_features_type : Z;
  lh_media_features_width : float;
  lh_media_features_height : float;
  lh_media_features_device_width : float;
  lh_media_features_device_height : float;
  lh_media_features_color : Z;
  lh_media_features_color_index : Z;
  lh_media_features_monochrome : Z;
  lh_media_features_resolution : float
}.

Record lh_point_t : Type := LhPoint {
  lh_point_x : float;
  lh_point_y : float
}.

(** Value-initialised structs: every member zero. *)
Definition lh_position_zero : lh_position_t :=
  LhPosition float_zero float_zero float_zero float_zero.
Definition lh_web_color_zero : lh_web_color_t := LhWebColor 0 0 0 0 0.
Definition lh_point_zero : lh_point_t := LhPoint float_zero float_zero.
Definition lh_border_radiuses_zero : lh_border_radiuses_t :=
  LhBorderRadiuses float_zero float_zero float_zero float_zero
                   float_zero float_zero float_zero float_zero.
Definition lh_font_metrics_zero : lh_font_metrics_t :=
  LhFontMetrics float_zero float_zero float_zero float_zero float_zero
                float_zero 0 float_zero float_zero.

(** ** Conversion helpers between C structs and litehtml types

    C++ overloads [to_c], [to_cpp] and [from_c] on the argument type; each
    overload gets the type as a suffix here. *)

Definition to_c_position (p : position) : lh_position_t :=
  {| lh_position_x := position_x p;
     lh_position_y := position_y p;
     lh_position_width := position_width p;
     lh_position_height := position_height p |}.

Definition to_cpp_position (p : lh_position_t) : position :=
  Position (lh_position_x p) (lh_position_y p)
           (lh_position_width p) (lh_position_height p).

Definition to_c_size (s : size) : lh_size_t :=
  {| lh_size_width := size_width s;
     lh_size_height := size_height s |}.

Definition to_cpp_size (s : lh_size_t) : size :=
  Size (lh_size_width s) (lh_size_height s).

Definition to_c_web_color (c : web_color) : lh_web_color_t :=
  {| lh_web_color_red := web_color_red c;
     lh_web_color_green := web_color_green c;
     lh_web_color_blue := web_color_blue c;
     lh_web_color_alpha := web_color_alpha c;
     lh_web_color_is_current_color :=
       int_of_bool (web_color_is_current_color c) |}.

Definition to_cpp_web_color (c : lh_web_color_t) : web_color :=
  let r := web_color_ctor (lh_web_color_red c) (lh_web_color_green c)
                          (lh_web_color_blue c) (lh_web_color_alpha c) in
  {| web_color_red := web_color_red r;
     web_color_green := web_color_green r;
     web_color_blue := web_color_blue r;
     web_color_alpha := web_color_alpha r;
     web_color_is_current_color :=
       bool_of_int (lh_web_color_is_current_color c) |}.

Definition to_c_font_metrics (m : font_metrics) : lh_font_metrics_t :=
  {| lh_font_metrics_font_size := font_metrics_font_size m;
     lh_font_metrics_height := font_metrics_height m;
     lh_font_metrics_ascent := font_metrics_ascent m;
     lh_font_metrics_descent := font_metrics_descent m;
     lh_font_metrics_x_height := font_metrics_x_height m;
     lh_font_metrics_ch_width := font_metrics_ch_width m;
     lh_font_metrics_draw_spaces := int_of_bool (font_metrics_draw_spaces m);
     lh_font_metrics_sub_shift := font_metrics_sub_shift m;
     lh_font_metrics_super_shift := font_metrics_super_shift m |}.

(** [from_c] assigns every member of [out]; the result is the new [out]. *)
Definition from_c_font_metrics (c : lh_font_metrics_t) (out : font_metrics)
  : font_metrics :=
  {| font_metrics_font_size := lh_font_metrics_font_size c;
     font_metrics_height := lh_font_metrics_height c;
     font_metrics_ascent := lh_font_metrics_ascent c;
     font_metrics_descent := lh_font_metrics_descent c;
     font_metrics_x_height := lh_font_metrics_x_height c;
     font_metrics_ch_width := lh_font_metrics_ch_width c;
     font_metrics_draw_spaces := bool_of_int (lh_font_metrics_draw_spaces c);
     font_metrics_sub_shift := lh_font_metrics_sub_shift c;
     font_metrics_super_shift := lh_font_metrics_super_shift c |}.

Definition to_c_border_radiuses (br : border_radiuses) : lh_border_radiuses_t :=
  {| lh_border_radiuses_top_left_x := border_radiuses_top_left_x br;
     lh_border_radiuses_top_left_y := border_radiuses_top_left_y br;
     lh_border_radiuses_top_right_x := border_radiuses_top_right_x br;
     lh_border_radiuses_top_right_y := border_radiuses_top_right_y br;
     lh_border_radiuses_bottom_right_x := border_radiuses_bottom_right_x br;
     lh_border_radiuses_bottom_right_y := border_radiuses_bottom_right_y br;
     lh_border_radiuses_bottom_left_x := border_radiuses_bottom_left_x br;
     lh_border_radiuses_bottom_left_y := border_radiuses_bottom_left_y br |}.

Definition to_cpp_border_radiuses (br : lh_border_radiuses_t) : border_radiuses :=
  {| border_radiuses_top_left_x := lh_border_radiuses_top_left_x br;
     border_radiuses_top_left_y := lh_border_radiuses_top_left_y br;
     border_radiuses_top_right_x := lh_border_radiuses_top_right_x br;
     border_radiuses_top_right_y := lh_border_radiuses_top_right_y br;
     border_radiuses_bottom_right_x := lh_border_radiuses_bottom_right_x br;
     border_radiuses_bottom_right_y := lh_border_radiuses_bottom_right_y br;
     border_radiuses_bottom_left_x := lh_border_radiuses_bottom_left_x br;
     border_radiuses_bottom_left_y := lh_border_radiuses_bottom_left_y br |}.

Definition to_c_border (b : border) : lh_border_t :=
  {| lh_border_width := border_width b;
     lh_border_style := enum_to_int (border_style b);
     lh_border_color := to_c_web_color (border_color b) |}.

Definition to_c_borders (b : borders) : lh_borders_t :=
  {| lh_borders_left := to_c_border (borders_left b);
     lh_borders_top := to_c_border (borders_top b);
     lh_borders_right := to_c_border (borders_right b);
     lh_borders_bottom := to_c_border (borders_bottom b);
     lh_borders_radius := to_c_border_radiuses (borders_radius b) |}.

Definition to_c_media_features (mf : media_features) : lh_media_features_t :=
  {| lh_media_features_type := enum_to_int (media_features_type mf);
     lh_media_features_width := media_features_width mf;
     lh_media_features_height := media_features_height mf;
     lh_media_features_device_width := media_features_device_width mf;
     lh_media_features_device_height := media_features_device_height mf;
     lh_media_features_color := media_features_color mf;
     lh_media_features_color_index := media_features_color_index mf;
     lh_media_features_monochrome := media_features_monochrome mf;
     lh_media_features_resolution := media_features_resolution mf |}.

Definition from_c_media_features (c : lh_media_features_t) (out : media_features)
  : media_features :=
  {| media_features_type := enum_of_int (lh_media_features_type c);
     media_features_width := lh_media_features_width c;
     media_features_height := lh_media_features_height c;
     media_features_device_width := lh_media_features_device_width c;
     media_features_device_height := lh_media_features_device_height c;
     media_features_color := lh_media_features_color c;
     media_features_color_index := lh_media_features_color_index c;
     media_features_monochrome := lh_media_features_monochrome c;
     media_features_resolution := lh_media_features_resolution c |}.

Definition to_c_pointF (p : pointF) : lh_point_t :=
  {| lh_point_x := pointF_x p;
     lh_point_y := pointF_y p |}.

(** ** Engine descriptors behind the opaque pointers

    [reinterpret_cast] turns an opaque [lh_*_t*] into a pointer to the
    engine object.  A pointer argument is an [option]: [None] is the null
    pointer, [Some d] points to the descriptor [d].  Each record holds the
    members (and, for [css_length], the results of the member functions)
    that the accessors read. *)

Record css_length : Type := CssLength {
  css_length_is_predefined : bool;
  css_length_predef : Z;
  css_length_val : float
}.

Record font_description : Type := FontDescription {
  font_description_family : string;
  font_description_size : float;
  font_description_style : enum_value;
  font_description_weight : Z;
  font_description_decoration_line : Z;
  font_description_decoration_thickness : css_length;
  font_description_decoration_style : enum_value;
  font_description_decoration_color : web_color;
  font_description_emphasis_style : string;
  font_description_emphasis_color : web_color;
  font_description_emphasis_position : Z
}.

Record list_marker : Type := ListMarker {
  list_marker_image : string;
  list_marker_baseurl : c_str;
  list_marker_marker_type : enum_value;
  list_marker_color : web_color;
  list_marker_pos : position;
  list_marker_index : Z;
  list_marker_font : Z
}.

Record background_layer : Type := BackgroundLayer {
  background_layer_border_box : position;
  background_layer_border_radius : border_radiuses;
  background_layer_clip_box : position;
  background_layer_origin_box : position;
  background_layer_attachment : enum_value;
  background_layer_repeat : enum_value;
  background_layer_is_root : bool
}.

Record color_point : Type := ColorPoint {
  color_point_offset : float;
  color_point_color : web_color
}.

Record linear_gradient : Type := LinearGradient {
  linear_gradient_start : pointF;
  linear_gradient_end : pointF;
  linear_gradient_color_points : list color_point;
  linear_gradient_color_space : enum_value;
  linear_gradient_hue_interpolation : enum_value
}.

Record radial_gradient : Type := RadialGradient {
  radial_gradient_position : pointF;
  radial_gradient_radius : pointF;
  radial_gradient_color_points : list color_point;
  radial_gradient_color_space : enum_value;
  radial_gradient_hue_interpolation : enum_value
}.

Record conic_gradient : Type := ConicGradient {
  conic_gradient_position : pointF;
  conic_gradient_angle : float;
  conic_gradient_radius : float;
  conic_gradient_color_points : list color_point;
  conic_gradient_color_space : enum_value;
  conic_gradient_hue_interpolation : enum_value
}.

(** [static_cast<int>(v.size())]. *)
Definition vector_size_int {A : Type} (v : list A) : Z :=
  static_cast_int (Z.of_nat (length v)).

(** The bounds test the index accessors share:
    [idx < 0 || idx >= static_cast<int>(v.size())]. *)
Definition index_out_of_range {A : Type} (v : list A) (idx : Z) : bool :=
  (idx <? 0) || (idx >=? vector_size_int v).

(** [v[idx]].  [None] is a read past the end of the vector. *)
Definition vector_at {A : Type} (v : list A) (idx : Z) : option A :=
  v !! Z.to_nat idx.

(** ** Accessor functions -- font_description *)

Definition lh_font_description_family (fd : option font_description) : c_str :=
  match fd with
  | None => Some EmptyString
  | Some d => Some (font_description_family d)
  end.

Definition lh_font_description_size (fd : option font_description) : float :=
  match fd with
  | None => float_zero
  | Some d => font_description_size d
  end.

Definition lh_font_description_style (fd : option font_description) : Z :=
  match fd with
  | None => 0
  | Some d => enum_to_int (font_description_style d)
  end.

Definition lh_font_description_weight (fd : option font_description) : Z :=
  match fd with
  | None => 0
  | Some d => font_description_weight d
  end.

Definition lh_font_description_decoration_line (fd : option font_description) : Z :=
  match fd with
  | None => 0
  | Some d => font_description_decoration_line d
  end.

Definition lh_font_description_decoration_thickness_is_predefined
    (fd : option font_description) : Z :=
  match fd with
  | None => 1
  | Some d =>
      int_of_bool (css_length_is_predefined (font_description_decoration_thickness d))
  end.

Definition lh_font_description_decoration_thickness_predef
    (fd : option font_description) : Z :=
  match fd with
  | None => 0
  | Some d =>
      if css_length_is_predefined (font_description_decoration_thickness d)
      then css_length_predef (font_description_decoration_thickness d)
      else 0
  end.

Definition lh_font_description_decoration_thickness_value
    (fd : option font_description) : float :=
  match fd with
  | None => float_zero
  | Some d =>
      if css_length_is_predefined (font_description_decoration_thickness d)
      then float_zero
      else css_length_val (font_description_decoration_thickness d)
  end.

Definition lh_font_description_decoration_style (fd : option font_description) : Z :=
  match fd with
  | None => 0
  | Some d => enum_to_int (font_description_decoration_style d)
  end.

Definition lh_font_description_decoration_color (fd : option font_description)
  : lh_web_color_t :=
  match fd with
  | None => lh_web_color_zero
  | Some d => to_c_web_color (font_description_decoration_color d)
  end.

Definition lh_font_description_emphasis_style (fd : option font_description) : c_str :=
  match fd with
  | None => Some EmptyString
  | Some d => Some (font_description_emphasis_style d)
  end.

Definition lh_font_description_emphasis_color (fd : option font_description)
  : lh_web_color_t :=
  match fd with
  | None => lh_web_color_zero
  | Some d => to_c_web_color (font_description_emphasis_color d)
  end.

Definition lh_font_description_emphasis_position (fd : option font_description) : Z :=
  match fd with
  | None => 0
  | Some d => font_description_emphasis_position d
  end.

(** ** Accessor functions -- list_marker *)

Definition lh_list_marker_image (m : option list_marker) : c_str :=
  match m with
  | None => Some EmptyString
  | Some mk => Some (list_marker_image mk)
  end.

Definition lh_list_marker_baseurl (m : option list_marker) : c_str :=
  match m with
  | None => Some EmptyString
  | Some mk => list_marker_baseurl mk
  end.

Definition lh_list_marker_type (m : option list_marker) : Z :=
  match m with
  | None => 0
  | Some mk => enum_to_int (list_marker_marker_type mk)
  end.

Definition lh_list_marker_color (m : option list_marker) : lh_web_color_t :=
  match m with
  | None => lh_web_color_zero
  | Some mk => to_c_web_color (list_marker_color mk)
  end.

Definition lh_list_marker_pos (m : option list_marker) : lh_position_t :=
  match m with
  | None => lh_position_zero
  | Some mk => to_c_position (list_marker_pos mk)
  end.

Definition lh_list_marker_index (m : option list_marker) : Z :=
  match m with
  | None => 0
  | Some mk => list_marker_index mk
  end.

Definition lh_list_marker_font (m : option list_marker) : Z :=
  match m with
  | None => 0
  | Some mk => list_marker_font mk
  end.

(** ** Accessor functions -- background_layer *)

Definition lh_background_layer_border_box (layer : option background_layer)
  : lh_position_t :=
  match layer with
  | None => lh_position_zero
  | Some bl => to_c_position (background_layer_border_box bl)
  end.

Definition lh_background_layer_border_radius (layer : option background_layer)
  : lh_border_radiuses_t :=
  match layer with
  | None => lh_border_radiuses_zero
  | Some bl => to_c_border_radiuses (background_layer_border_radius bl)
  end.

Definition lh_background_layer_clip_box (layer : option background_layer)
  : lh_position_t :=
  match layer with
  | None => lh_position_zero
  | Some bl => to_c_position (background_layer_clip_box bl)
  end.

Definition lh_background_layer_origin_box (layer : option background_layer)
  : lh_position_t :=
  match layer with
  | None => lh_position_zero
  | Some bl => to_c_position (background_layer_origin_box bl)
  end.

Definition lh_background_layer_attachment (layer : option background_layer) : Z :=
  match layer with
  | None => 0
  | Some bl => enum_to_int (background_layer_attachment bl)
  end.

Definition lh_background_layer_repeat (layer : option background_layer) : Z :=
  match layer with
  | None => 0
  | Some bl => enum_to_int (background_layer_repeat bl)
  end.

Definition lh_background_layer_is_root (layer : option background_layer) : Z :=
  match layer with
  | None => 0
  | Some bl => int_of_bool (background_layer_is_root bl)
  end.

(** ** Accessor functions -- gradients

    In the colour-point accessors the read [color_points[idx]] follows a
    bounds test on [idx].  When the test passes the read is inside the
    vector ([vector_at_in_range] below); the [None] branch of the read is
    there only to make the function total. *)

(** *** linear_gradient *)

Definition lh_linear_gradient_start (g : option linear_gradient) : lh_point_t :=
  match g with
  | None => lh_point_zero
  | Some lg => to_c_pointF (linear_gradient_start lg)
  end.

Definition lh_linear_gradient_end (g : option linear_gradient) : lh_point_t :=
  match g with
  | None => lh_point_zero
  | Some lg => to_c_pointF (linear_gradient_end lg)
  end.

Definition lh_linear_gradient_color_points_count (g : option linear_gradient) : Z :=
  match g with
  | None => 0
  | Some lg => vector_size_int (linear_gradient_color_points lg)
  end.

Definition lh_linear_gradient_color_point_offset
    (g : option linear_gradient) (idx : Z) : float :=
  match g with
  | None => float_zero
  | Some lg =>
      if index_out_of_range (linear_gradient_color_points lg) idx then float_zero
      else match vector_at (linear_gradient_color_points lg) idx with
           | Some cp => color_point_offset cp
           | None => float_zero
           end
  end.

Definition lh_linear_gradient_color_point_color
    (g : option linear_gradient) (idx : Z) : lh_web_color_t :=
  match g with
  | None => lh_web_color_zero
  | Some lg =>
      if index_out_of_range (linear_gradient_color_points lg) idx then
        let zero := lh_web_color_zero in zero
      else match vector_at (linear_gradient_color_points lg) idx with
           | Some cp => to_c_web_color (color_point_color cp)
           | None => lh_web_color_zero
           end
  end.

Definition lh_linear_gradient_color_space (g : option linear_gradient) : Z :=
  match g with
  | None => 0
  | Some lg => enum_to_int (linear_gradient_color_space lg)
  end.

Definition lh_linear_gradient_hue_interpolation (g : option linear_gradient) : Z :=
  match g with
  | None => 0
  | Some lg => enum_to_int (linear_gradient_hue_interpolation lg)
  end.

(** *** radial_gradient *)

Definition lh_radial_gradient_position (g : option radial_gradient) : lh_point_t :=
  match g with
  | None => lh_point_zero
  | Some rg => to_c_pointF (radial_gradient_position rg)
  end.

Definition lh_radial_gradient_radius (g : option radial_gradient) : lh_point_t :=
  match g with
  | None => lh_point_zero
  | Some rg => to_c_pointF (radial_gradient_radius rg)
  end.

Definition lh_radial_gradient_color_points_count (g : option radial_gradient) : Z :=
  match g with
  | None => 0
  | Some rg => vector_size_int (radial_gradient_color_points rg)
  end.

Definition lh_radial_gradient_color_point_offset
    (g : option radial_gradient) (idx : Z) : float :=
  match g with
  | None => float_zero
  | Some rg =>
      if index_out_of_range (radial_gradient_color_points rg) idx then float_zero
      else match vector_at (radial_gradient_color_points rg) idx with
           | Some cp => color_point_offset cp
           | None => float_zero
           end
  end.

Definition lh_radial_gradient_color_point_color
    (g : option radial_gradient) (idx : Z) : lh_web_color_t :=
  match g with
  | None => lh_web_color_zero
  | Some rg =>
      if index_out_of_range (radial_gradient_color_points rg) idx then
        let zero := lh_web_color_zero in zero
      else match vector_at (radial_gradient_color_points rg) idx with
           | Some cp => to_c_web_color (color_point_color cp)
           | None => lh_web_color_zero
           end
  end.

Definition lh_radial_gradient_color_space (g : option radial_gradient) : Z :=
  match g with
  | None => 0
  | Some rg => enum_to_int (radial_gradient_color_space rg)
  end.

Definition lh_radial_gradient_hue_interpolation (g : option radial_gradient) : Z :=
  match g with
  | None => 0
  | Some rg => enum_to_int (radial_gradient_hue_interpolation rg)
  end.

(** *** conic_gradient *)

Definition lh_conic_gradient_position (g : option conic_gradient) : lh_point_t :=
  match g with
  | None => lh_point_zero
  | Some cg => to_c_pointF (conic_gradient_position cg)
  end.

Definition lh_conic_gradient_angle (g : option conic_gradient) : float :=
  match g with
  | None => float_zero
  | Some cg => conic_gradient_angle cg
  end.

Definition lh_conic_gradient_radius (g : option conic_gradient) : float :=
  match g with
  | None => float_zero
  | Some cg => conic_gradient_radius cg
  end.

Definition lh_conic_gradient_color_points_count (g : option conic_gradient) : Z :=
  match g with
  | None => 0
  | Some cg => vector_size_int (conic_gradient_color_points cg)
  end.

Definition lh_conic_gradient_color_point_offset
    (g : option conic_gradient) (idx : Z) : float :=
  match g with
  | None => float_zero
  | Some cg =>
      if index_out_of_range (conic_gradient_color_points cg) idx then float_zero
      else match vector_at (conic_gradient_color_points cg) idx with
           | Some cp => color_point_offset cp
           | None => float_zero
           end
  end.

Definition lh_conic_gradient_color_point_color
    (g : option conic_gradient) (idx : Z) : lh_web_color_t :=
  match g with
  | None => lh_web_color_zero
  | Some cg =>
      if index_out_of_range (conic_gradient_color_points cg) idx then
        let zero := lh_web_color_zero in zero
      else match vector_at (conic_gradient_color_points cg) idx with
           | Some cp => to_c_web_color (color_point_color cp)
           | None => lh_web_color_zero
           end
  end.

Definition lh_conic_gradient_color_space (g : option conic_gradient) : Z :=
  match g with
  | None => 0
  | Some cg => enum_to_int (conic_gradient_color_space cg)
  end.

Definition lh_conic_gradient_hue_interpolation (g : option conic_gradient) : Z :=
  match g with
  | None => 0
  | Some cg => enum_to_int (conic_gradient_hue_interpolation cg)
  end.

(** ** Container callback vtable

    [World] is the caller's state: whatever the callbacks read and write
    through [user_data].  A table entry is an [option]: [None] is a null
    function pointer.  A callback is a function of the arguments the C
    signature lists (first [user_data]) and of the caller's state; it
    returns the new state, the C return value, and the final contents of
    every struct it received by non-const pointer.

    [transform_text] and [import_css] receive a result setter
    ([lh_set_string_fn]) and a context which they can only hand back to the
    setter.  Such a callback returns the arguments with which it invoked
    the setter before returning, in call order (the empty list when it
    never invoked it); [get_language] likewise, with pairs. *)

Definition void_ptr : Type := Z.
Definition uint_ptr : Type := Z.

Section Adapter.

Context {World : Type}.

Record lh_container_vtable_t : Type := LhContainerVtable {
  vtable_create_font :
    option (void_ptr -> option font_description -> lh_font_metrics_t ->
            World -> World * (uint_ptr * lh_font_metrics_t));
  vtable_delete_font :
    option (void_ptr -> uint_ptr -> World -> World);
  vtable_text_width :
    option (void_ptr -> c_str -> uint_ptr -> World -> World * float);
  vtable_draw_text :
    option (void_ptr -> uint_ptr -> c_str -> uint_ptr -> lh_web_color_t ->
            lh_position_t -> World -> World);
  vtable_pt_to_px :
    option (void_ptr -> float -> World -> World * float);
  vtable_get_default_font_size :
    option (void_ptr -> World -> World * float);
  vtable_get_default_font_name :
    option (void_ptr -> World -> World * c_str);
  vtable_draw_list_marker :
    option (void_ptr -> uint_ptr -> option list_marker -> World -> World);
  vtable_load_image :
    option (void_ptr -> c_str -> c_str -> Z -> World -> World);
  vtable_get_image_size :
    option (void_ptr -> c_str -> c_str -> lh_size_t -> World -> World * lh_size_t);
  vtable_draw_image :
    option (void_ptr -> uint_ptr -> option background_layer -> c_str -> c_str ->
            World -> World);
  vtable_draw_solid_fill :
    option (void_ptr -> uint_ptr -> option background_layer -> lh_web_color_t ->
            World -> World);
  vtable_draw_linear_gradient :
    option (void_ptr -> uint_ptr -> option background_layer ->
            option linear_gradient -> World -> World);
  vtable_draw_radial_gradient :
    option (void_ptr -> uint_ptr -> option background_layer ->
            option radial_gradient -> World -> World);
  vtable_draw_conic_gradient :
    option (void_ptr -> uint_ptr -> option background_layer ->
            option conic_gradient -> World -> World);
  vtable_draw_borders :
    option (void_ptr -> uint_ptr -> lh_borders_t -> lh_position_t -> Z ->
            World -> World);
  vtable_set_caption :
    option (void_ptr -> c_str -> World -> World);
  vtable_set_base_url :
    option (void_ptr -> c_str -> World -> World);
  vtable_link :
    option (void_ptr -> World -> World);
  vtable_on_anchor_click :
    option (void_ptr -> c_str -> World -> World);
  vtable_on_mouse_event :
    option (void_ptr -> Z -> World -> World);
  vtable_set_cursor :
    option (void_ptr -> c_str -> World -> World);
  vtable_transform_text :
    option (void_ptr -> c_str -> Z -> World -> World * list c_str);
  vtable_import_css :
    option (void_ptr -> c_str -> c_str -> World -> World * list c_str);
  vtable_set_clip :
    option (void_ptr -> lh_position_t -> lh_border_radiuses_t -> World -> World);
  vtable_del_clip :
    option (void_ptr -> World -> World);
  vtable_get_viewport :
    option (void_ptr -> lh_position_t -> World -> World * lh_position_t);
  vtable_get_media_features :
    option (void_ptr -> lh_media_features_t -> World -> World * lh_media_features_t);
  vtable_get_language :
    option (void_ptr -> World -> World * list (c_str * c_str))
}.

(** ** CDocumentContainer -- bridges vtable calls to the C callback table *)

Record CDocumentContainer : Type := CDocumentContainerCtor {
  vtable : lh_container_vtable_t;
  user_data : void_ptr
}.

(** The setter lambdas: [*p = r ? r : ""], and the two-string one of
    [get_language]. *)
Definition set_string_result (p : string) (r : c_str) : string :=
  string_or_empty r.

Definition set_language_result (lc : string * string) (r : c_str * c_str)
  : string * string :=
  (string_or_empty (fst r), string_or_empty (snd r)).

Definition CDocumentContainer_create_font (c : CDocumentContainer)
    (descr : font_description) (fm : option font_metrics) (w : World)
  : World * (uint_ptr * option font_metrics) :=
  match vtable_create_font (vtable c) with
  | None => (w, (0, fm))
  | Some cb =>
      let fd := Some descr in
      let c_fm := lh_font_metrics_zero in
      let '(w', (result, c_fm')) := cb (user_data c) fd c_fm w in
      (w', (result, from_c_font_metrics c_fm' <$> fm))
  end.

Definition CDocumentContainer_delete_font (c : CDocumentContainer)
    (hFont : uint_ptr) (w : World) : World :=
  match vtable_delete_font (vtable c) with
  | Some cb => cb (user_data c) hFont w
  | None => w
  end.

Definition CDocumentContainer_text_width (c : CDocumentContainer)
    (text : c_str) (hFont : uint_ptr) (w : World) : World * float :=
  match vtable_text_width (vtable c) with
  | None => (w, float_of_int 0)
  | Some cb => cb (user_data c) text hFont w
  end.

Definition CDocumentContainer_draw_text (c : CDocumentContainer)
    (hdc : uint_ptr) (text : c_str) (hFont : uint_ptr) (color : web_color)
    (pos : position) (w : World) : World :=
  match vtable_draw_text (vtable c) with
  | None => w
  | Some cb =>
      cb (user_data c) hdc text hFont (to_c_web_color color) (to_c_position pos) w
  end.

Definition CDocumentContainer_pt_to_px (c : CDocumentContainer)
    (pt : float) (w : World) : World * float :=
  match vtable_pt_to_px (vtable c) with
  | None => (w, pt)
  | Some cb => cb (user_data c) pt w
  end.

Definition CDocumentContainer_get_default_font_size (c : CDocumentContainer)
    (w : World) : World * float :=
  match vtable_get_default_font_size (vtable c) with
  | None => (w, float_of_int 16)
  | Some cb => cb (user_data c) w
  end.

Definition CDocumentContainer_get_default_font_name (c : CDocumentContainer)
    (w : World) : World * c_str :=
  match vtable_get_default_font_name (vtable c) with
  | None => (w, Some "serif"%string)
  | Some cb => cb (user_data c) w
  end.

Definition CDocumentContainer_draw_list_marker (c : CDocumentContainer)
    (hdc : uint_ptr) (marker : list_marker) (w : World) : World :=
  match vtable_draw_list_marker (vtable c) with
  | None => w
  | Some cb => let m := Some marker in cb (user_data c) hdc m w
  end.

Definition CDocumentContainer_load_image (c : CDocumentContainer)
    (src baseurl : c_str) (redraw_on_ready : bool) (w : World) : World :=
  match vtable_load_image (vtable c) with
  | None => w
  | Some cb => cb (user_data c) src baseurl (int_of_bool redraw_on_ready) w
  end.

Definition CDocumentContainer_get_image_size (c : CDocumentContainer)
    (src baseurl : c_str) (sz : size) (w : World) : World * size :=
  match vtable_get_image_size (vtable c) with
  | None => (w, sz)
  | Some cb =>
      let c_sz := to_c_size sz in
      let '(w', c_sz') := cb (user_data c) src baseurl c_sz w in
      (w', {| size_width := lh_size_width c_sz';
              size_height := lh_size_height c_sz' |})
  end.

Definition CDocumentContainer_draw_image (c : CDocumentContainer)
    (hdc : uint_ptr) (layer : background_layer) (url base_url : string)
    (w : World) : World :=
  match vtable_draw_image (vtable c) with
  | None => w
  | Some cb =>
      let bl := Some layer in
      cb (user_data c) hdc bl (Some url) (Some base_url) w
  end.

Definition CDocumentContainer_draw_solid_fill (c : CDocumentContainer)
    (hdc : uint_ptr) (layer : background_layer) (color : web_color)
    (w : World) : World :=
  match vtable_draw_solid_fill (vtable c) with
  | None => w
  | Some cb =>
      let bl := Some layer in
      cb (user_data c) hdc bl (to_c_web_color color) w
  end.

Definition CDocumentContainer_draw_linear_gradient (c : CDocumentContainer)
    (hdc : uint_ptr) (layer : background_layer) (gradient : linear_gradient)
    (w : World) : World :=
  match vtable_draw_linear_gradient (vtable c) with
  | None => w
  | Some cb =>
      let bl := Some layer in
      let lg := Some gradient in
      cb (user_data c) hdc bl lg w
  end.

Definition CDocumentContainer_draw_radial_gradient (c : CDocumentContainer)
    (hdc : uint_ptr) (layer : background_layer) (gradient : radial_gradient)
    (w : World) : World :=
  match vtable_draw_radial_gradient (vtable c) with
  | None => w
  | Some cb =>
      let bl := Some layer in
      let rg := Some gradient in
      cb (user_data c) hdc bl rg w
  end.

Definition CDocumentContainer_draw_conic_gradient (c : CDocumentContainer)
    (hdc : uint_ptr) (layer : background_layer) (gradient : conic_gradient)
    (w : World) : World :=
  match vtable_draw_conic_gradient (vtable c) with
  | None => w
  | Some cb =>
      let bl := Some layer in
      let cg := Some gradient in
      cb (user_data c) hdc bl cg w
  end.

Definition CDocumentContainer_draw_borders (c : CDocumentContainer)
    (hdc : uint_ptr) (b : borders) (draw_pos : position) (root : bool)
    (w : World) : World :=
  match vtable_draw_borders (vtable c) with
  | None => w
  | Some cb =>
      cb (user_data c) hdc (to_c_borders b) (to_c_position draw_pos)
         (int_of_bool root) w
  end.

Definition CDocumentContainer_set_caption (c : CDocumentContainer)
    (caption : c_str) (w : World) : World :=
  match vtable_set_caption (vtable c) with
  | Some cb => cb (user_data c) caption w
  | None => w
  end.

Definition CDocumentContainer_set_base_url (c : CDocumentContainer)
    (base_url : c_str) (w : World) : World :=
  match vtable_set_base_url (vtable c) with
  | Some cb => cb (user_data c) base_url w
  | None => w
  end.

Definition CDocumentContainer_link (c : CDocumentContainer) (w : World) : World :=
  match vtable_link (vtable c) with
  | Some cb => cb (user_data c) w
  | None => w
  end.

Definition CDocumentContainer_on_anchor_click (c : CDocumentContainer)
    (url : c_str) (w : World) : World :=
  match vtable_on_anchor_click (vtable c) with
  | Some cb => cb (user_data c) url w
  | None => w
  end.

Definition CDocumentContainer_on_mouse_event (c : CDocumentContainer)
    (event : enum_value) (w : World) : World :=
  match vtable_on_mouse_event (vtable c) with
  | Some cb => cb (user_data c) (enum_to_int event) w
  | None => w
  end.

Definition CDocumentContainer_set_cursor (c : CDocumentContainer)
    (cursor : c_str) (w : World) : World :=
  match vtable_set_cursor (vtable c) with
  | Some cb => cb (user_data c) cursor w
  | None => w
  end.

(** [transform_text] and [import_css] return the new contents of [text]. *)
Definition CDocumentContainer_transform_text (c : CDocumentContainer)
    (text : string) (tt : enum_value) (w : World) : World * string :=
  match vtable_transform_text (vtable c) with
  | None => (w, text)
  | Some cb =>
      let result := text in
      let '(w', calls) := cb (user_data c) (Some text) (enum_to_int tt) w in
      let result := fold_left set_string_result calls result in
      (w', result)
  end.

Definition CDocumentContainer_import_css (c : CDocumentContainer)
    (text url baseurl : string) (w : World) : World * string :=
  match vtable_import_css (vtable c) with
  | None => (w, text)
  | Some cb =>
      let result := EmptyString in
      let '(w', calls) := cb (user_data c) (Some url) (Some baseurl) w in
      let result := fold_left set_string_result calls result in
      (w', result)
  end.

Definition CDocumentContainer_set_clip (c : CDocumentContainer)
    (pos : position) (bdr_radius : border_radiuses) (w : World) : World :=
  match vtable_set_clip (vtable c) with
  | Some cb =>
      cb (user_data c) (to_c_position pos) (to_c_border_radiuses bdr_radius) w
  | None => w
  end.

Definition CDocumentContainer_del_clip (c : CDocumentContainer) (w : World) : World :=
  match vtable_del_clip (vtable c) with
  | Some cb => cb (user_data c) w
  | None => w
  end.

Definition CDocumentContainer_get_viewport (c : CDocumentContainer)
    (viewport : position) (w : World) : World * position :=
  match vtable_get_viewport (vtable c) with
  | None => (w, viewport)
  | Some cb =>
      let c_vp := to_c_position viewport in
      let '(w', c_vp') := cb (user_data c) c_vp w in
      (w', to_cpp_position c_vp')
  end.

Definition CDocumentContainer_get_media_features (c : CDocumentContainer)
    (media : media_features) (w : World) : World * media_features :=
  match vtable_get_media_features (vtable c) with
  | None => (w, media)
  | Some cb =>
      let c_mf := to_c_media_features media in
      let '(w', c_mf') := cb (user_data c) c_mf w in
      (w', from_c_media_features c_mf' media)
  end.

Definition CDocumentContainer_get_language (c : CDocumentContainer)
    (language culture : string) (w : World) : World * (string * string) :=
  match vtable_get_language (vtable c) with
  | None => (w, (language, culture))
  | Some cb =>
      let ctx := (language, culture) in
      let '(w', calls) := cb (user_data c) w in
      (w', fold_left set_language_result calls ctx)
  end.

End Adapter.

Arguments lh_container_vtable_t : clear implicits.
Arguments CDocumentContainer : clear implicits.

(** ** The render tree, as the wrapper reads it

    A [render_item] holds the results of the engine's const member
    functions [get_placement()], [pos()] and [get_inline_boxes(boxes)]; an
    [element] holds [children()], [is_text()], [get_placement()] and
    [get_render_item()] (null when the element was not laid out).  An
    [lh_element_t*] is an [option element]. *)

Record render_item : Type := RenderItem {
  render_item_get_placement : position;
  render_item_pos : position;
  render_item_get_inline_boxes : list position
}.

#[warnings="-register-all"]
Inductive element : Type := Element {
  element_children : list element;
  element_is_text : bool;
  element_get_placement : position;
  element_get_render_item : option render_item
}.

(** ** Element introspection *)

Definition lh_element_children_count (el : option element) : Z :=
  match el with
  | None => 0
  | Some elem => vector_size_int (element_children elem)
  end.

Definition lh_element_child_at (el : option element) (index : Z) : option element :=
  match el with
  | None => None
  | Some elem =>
      let kids := element_children elem in
      if index_out_of_range kids index then None
      else vector_at kids index
  end.

Definition lh_element_is_text (el : option element) : Z :=
  match el with
  | None => 0
  | Some elem => int_of_bool (element_is_text elem)
  end.

(** Functions with an out-parameter [lh_position_t* pos] take the contents
    of [*pos] before the call ([None] for a null pointer) and return its
    contents after the call. *)
Definition lh_element_get_placement (el : option element) (pos : option lh_position_t)
  : option lh_position_t :=
  match el, pos with
  | Some elem, Some _ =>
      let p := element_get_placement elem in
      Some (to_c_position p)
  | _, _ => pos
  end.

(** Compute parent-chain offset: placement.{x,y} - m_pos.{x,y} *)
Definition compute_ri_offset (ri : render_item) : float * float :=
  let placement := render_item_get_placement ri in
  let pos := render_item_pos ri in
  (float_sub (position_x placement) (position_x pos),
   float_sub (position_y placement) (position_y pos)).

Definition lh_element_get_inline_boxes_count (el : option element) : Z :=
  match el with
  | None => 0
  | Some elem =>
      match element_get_render_item elem with
      | None => 0
      | Some ri => vector_size_int (render_item_get_inline_boxes ri)
      end
  end.

Definition lh_element_get_inline_box_at (el : option element) (index : Z)
    (pos : option lh_position_t) : option lh_position_t :=
  match el, pos with
  | Some elem, Some _ =>
      match element_get_render_item elem with
      | None => pos
      | Some ri =>
          let boxes := render_item_get_inline_boxes ri in
          if index_out_of_range boxes index then pos
          else
            let '(ox, oy) := compute_ri_offset ri in
            match vector_at boxes index with
            | Some box =>
                let box := {| position_x := float_add (position_x box) ox;
                              position_y := float_add (position_y box) oy;
                              position_width := position_width box;
                              position_height := position_height box |} in
                Some (to_c_position box)
            | None => pos
            end
      end
  | _, _ => pos
  end.

(** The box the specification describes for a stored box of a render item:
    both coordinates moved by the item's offset, [get_placement() - pos()],
    width and height as stored. *)
Definition apply_ri_offset (ri : render_item) (box : position) : lh_position_t :=
  {| lh_position_x :=
       float_add (position_x box)
                 (float_sub (position_x (render_item_get_placement ri))
                            (position_x (render_item_pos ri)));
     lh_position_y :=
       float_add (position_y box)
                 (float_sub (position_y (render_item_get_placement ri))
                            (position_y (render_item_pos ri)));
     lh_position_width := position_width box;
     lh_position_height := position_height box |}.

(** ** Objects and their lifetimes

    [new] and [delete] act on three heaps: the [CDocumentContainer]
    objects, the [lh_document_internal] wrappers (an [lh_document_t*] is the
    address of one) and the engine documents behind [document::ptr].  A
    lookup of an address that is not in its heap is a use of a dangling
    pointer: the function has no result ([None]). *)

Definition loc : Type := positive.
Bind Scope positive_scope with loc.

(** The engine document: the container it calls back into, the fonts it
    created and releases when it is destroyed, [root()] and
    [root_render()]. *)
Record document : Type := Document {
  document_container : loc;
  document_fonts : list uint_ptr;
  document_root : option element;
  document_root_render : option render_item
}.

(** A document together with the number of [shared_ptr]s that own it. *)
Record shared_document : Type := SharedDocument {
  use_count : nat;
  shared_object : document
}.

(** Internal document wrapper *)
Record lh_document_internal : Type := LhDocumentInternal {
  internal_doc : loc;
  internal_container : loc
}.

(** What happened to the paired objects, in order. *)
Inductive event : Type :=
  | EvContainerCreated (c : loc)
  | EvContainerDeleted (c : loc)
  | EvDocumentReleased (d : loc)
  | EvDeleteFont (c : loc) (hFont : uint_ptr).

Section Lifecycle.

Context {World : Type}.

Record state : Type := State {
  containers : gmap loc (CDocumentContainer World);
  internals : gmap loc lh_document_internal;
  documents : gmap loc shared_document;
  world : World;
  trace : list event
}.

Definition set_containers (f : gmap loc (CDocumentContainer World) ->
                               gmap loc (CDocumentContainer World))
    (st : state) : state :=
  State (f (containers st)) (internals st) (documents st) (world st) (trace st).

Definition set_internals (f : gmap loc lh_document_internal ->
                              gmap loc lh_document_internal)
    (st : state) : state :=
  State (containers st) (f (internals st)) (documents st) (world st) (trace st).

Definition set_documents (f : gmap loc shared_document -> gmap loc shared_document)
    (st : state) : state :=
  State (containers st) (internals st) (f (documents st)) (world st) (trace st).

Definition set_world (w : World) (st : state) : state :=
  State (containers st) (internals st) (documents st) w (trace st).

Definition log_event (e : event) (st : state) : state :=
  State (containers st) (internals st) (documents st) (world st) (trace st ++ [e]).

(** [new CDocumentContainer(vt, ud)] *)
Definition new_CDocumentContainer (vt : lh_container_vtable_t World) (ud : void_ptr)
    (st : state) : loc * state :=
  let c := fresh (dom (containers st)) in
  (c, log_event (EvContainerCreated c)
        (set_containers (insert c (CDocumentContainerCtor vt ud)) st)).

(** [delete container] *)
Definition delete_CDocumentContainer (c : loc) (st : state) : option state :=
  _ ← containers st !! c;
  Some (log_event (EvContainerDeleted c) (set_containers (delete c) st)).

(** A virtual call [container->delete_font(hFont)] made by the engine. *)
Definition container_delete_font (c : loc) (hFont : uint_ptr) (st : state)
  : option state :=
  obj ← containers st !! c;
  Some (log_event (EvDeleteFont c hFont)
          (set_world (CDocumentContainer_delete_font obj hFont (world st)) st)).

(** Modelled from the spec: the engine's document destructor (litehtml's
    [document::~document], which is not part of the wrapper's sources).
    The Destroy contract and the comment in [lh_document_destroy] say that
    it calls back into the container, for one to release fonts: here,
    [delete_font] for every font the document holds, in order. *)
Fixpoint document_dtor_fonts (c : loc) (fonts : list uint_ptr) (st : state)
  : option state :=
  match fonts with
  | [] => Some st
  | hFont :: rest =>
      st' ← container_delete_font c hFont st;
      document_dtor_fonts c rest st'
  end.

Definition document_dtor (d : document) (st : state) : option state :=
  document_dtor_fonts (document_container d) (document_fonts d) st.

(** Dropping one [document::ptr]: the last owner destroys the document. *)
Definition shared_ptr_release (d : loc) (st : state) : option state :=
  sd ← documents st !! d;
  let st := log_event (EvDocumentReleased d) st in
  if (use_count sd <=? 1)%nat then
    st' ← document_dtor (shared_object sd) st;
    Some (set_documents (delete d) st')
  else
    Some (set_documents
            (insert d (SharedDocument (use_count sd - 1) (shared_object sd))) st).

(** [delete internal]: the member [doc] is dropped, then the wrapper is
    freed.  The member [container] is a raw pointer: nothing happens to the
    object it points to. *)
Definition delete_lh_document_internal (h : loc) (st : state) : option state :=
  internal ← internals st !! h;
  st' ← shared_ptr_release (internal_doc internal) st;
  Some (set_internals (delete h) st').

Definition lh_document_destroy (doc : option loc) (st : state) : option state :=
  match doc with
  | None => Some st
  | Some h =>
      internal ← internals st !! h;
      let container := internal_container internal in
      st' ← delete_lh_document_internal h st;
      delete_CDocumentContainer container st'
  end.

(** *** What creation and release amount to *)

(** The result of a creation with non-null [html] and [vtable], by the
    engine's answer. *)
Definition created_state (vt : lh_container_vtable_t World) (ud : void_ptr)
    (st : state) (w' : World) (r : option document)
  : option loc * state :=
  let container := fresh (dom (containers st)) in
  let heap := <[container := CDocumentContainerCtor vt ud]> (containers st) in
  let doc := fresh (dom (documents st)) in
  let internal := fresh (dom (internals st)) in
  match r with
  | None =>
      (None,
       State (containers st) (internals st) (documents st) w'
             (trace st ++ [EvContainerCreated container;
                           EvContainerDeleted container]))
  | Some d =>
      (Some internal,
       State heap
             (<[internal := LhDocumentInternal doc container]> (internals st))
             (<[doc := SharedDocument 1 d]> (documents st))
             w'
             (trace st ++ [EvContainerCreated container]))
  end.

(** The caller's state after the teardown callbacks of a document. *)
Definition teardown_world (obj : CDocumentContainer World)
    (fonts : list uint_ptr) (w : World) : World :=
  fold_left (fun w hFont => CDocumentContainer_delete_font obj hFont w) fonts w.

(** The events and the caller's state that dropping the wrapper's
    [document::ptr] produces: the destructor's callbacks when the wrapper is
    the last owner, nothing otherwise. *)
Definition release_events (sd : shared_document) : list event :=
  if (use_count sd <=? 1)%nat
  then map (EvDeleteFont (document_container (shared_object sd)))
           (document_fonts (shared_object sd))
  else [].

Definition release_world (obj : CDocumentContainer World) (sd : shared_document)
    (w : World) : World :=
  if (use_count sd <=? 1)%nat
  then teardown_world obj (document_fonts (shared_object sd)) w
  else w.

Definition release_documents (d : loc) (sd : shared_document)
    (m : gmap loc shared_document) : gmap loc shared_document :=
  if (use_count sd <=? 1)%nat
  then delete d m
  else <[d := SharedDocument (use_count sd - 1) (shared_object sd)]> m.

(** ** The engine entry points the wrapper calls

    The engine reads the container heap (to call back through the
    [document_container*] it was given) and changes the caller's state
    through those callbacks; it changes the document it works on.  It never
    creates or deletes a container or a wrapper. *)

Section Engine.

(** [litehtml::master_css] *)
Variable litehtml_master_css : string.

(** [document::createFromString(html, container, master, user)]: a new
    document, or null. *)
Variable document_createFromString :
  string -> loc -> string -> string ->
  gmap loc (CDocumentContainer World) -> World -> World * option document.

(** [litehtml::css] with its default constructor, [parse_css_stylesheet]
    and [sort_selectors]; [parse_media_query_list]; [apply_stylesheet] and
    [compute_styles] on the root element of a document. *)
Variable css : Type.
Variable css_ctor : css.
Variable media_query_list : Type.
Variable parse_media_query_list : string -> document -> media_query_list.
Variable css_parse_css_stylesheet :
  css -> string -> string -> option (list media_query_list) ->
  gmap loc (CDocumentContainer World) -> document -> World ->
  World * (document * css).
Variable css_sort_selectors : css -> css.
Variable element_apply_stylesheet : css -> document -> document.
Variable element_compute_styles :
  gmap loc (CDocumentContainer World) -> document -> World -> World * document.

(** [render_item::get_element_by_point(x, y, client_x, client_y, filter)] *)
Variable render_item_get_element_by_point :
  render_item -> float -> float -> float -> float ->
  (render_item -> bool) -> option element.

(** *** Document lifecycle *)

(** The local [doc] and the member [internal->doc] both own the document
    until the function returns; from then on the wrapper is its one owner. *)
Definition lh_document_create_from_string
    (html : c_str) (vtable : option (lh_container_vtable_t World))
    (user_data : void_ptr) (master_css user_styles : c_str) (st : state)
  : option (option loc * state) :=
  match html, vtable with
  | Some html, Some vtable =>
      let '(container, st) := new_CDocumentContainer vtable user_data st in
      let master := match master_css with
                    | Some s => s
                    | None => litehtml_master_css
                    end in
      let user := string_or_empty user_styles in
      let '(w, doc) :=
        document_createFromString html container master user
                                  (containers st) (world st) in
      let st := set_world w st in
      match doc with
      | None =>
          st' ← delete_CDocumentContainer container st;
          Some (None, st')
      | Some d =>
          let doc := fresh (dom (documents st)) in
          let st := set_documents (insert doc (SharedDocument 1 d)) st in
          let internal := fresh (dom (internals st)) in
          let st :=
            set_internals (insert internal (LhDocumentInternal doc container)) st in
          Some (Some internal, st)
      end
  | _, _ => Some (None, st)
  end.

(** *** Document content manipulation *)

(** [!s[0]] for a non-null [s]. *)
Definition first_byte_is_zero (s : string) : bool :=
  match s with
  | EmptyString => true
  | String _ _ => false
  end.

Definition lh_document_add_stylesheet
    (doc : option loc) (css_text baseurl media : c_str) (st : state)
  : option state :=
  match doc, css_text with
  | Some h, Some css_text =>
      if first_byte_is_zero css_text then Some st
      else
        internal ← internals st !! h;
        sd ← documents st !! internal_doc internal;
        let d := shared_object sd in
        let stylesheet := css_ctor in
        let mq :=
          match media with
          | Some media =>
              if first_byte_is_zero media then None
              else
                let mq_list := parse_media_query_list media d in
                Some [mq_list]
          | None => None
          end in
        let '(w, (d, stylesheet)) :=
          css_parse_css_stylesheet stylesheet css_text (string_or_empty baseurl)
                                   mq (containers st) d (world st) in
        let stylesheet := css_sort_selectors stylesheet in
        let '(w, d) :=
          match document_root d with
          | Some _ =>
              let d := element_apply_stylesheet stylesheet d in
              element_compute_styles (containers st) d w
          | None => (w, d)
          end in
        Some (set_world w
                (set_documents
                   (insert (internal_doc internal)
                           (SharedDocument (use_count sd) d)) st))
  | _, _ => Some st
  end.

Definition lh_document_root (doc : option loc) (st : state)
  : option (option element) :=
  match doc with
  | None => Some None
  | Some h =>
      internal ← internals st !! h;
      sd ← documents st !! internal_doc internal;
      Some (document_root (shared_object sd))
  end.

(** *** Hit testing *)

(** The lambda handed to the engine as its candidate filter:
    [[](const std::shared_ptr<litehtml::render_item>&) { return true; }] *)
Definition accept_every_candidate : render_item -> bool := fun _ => true.

Definition lh_document_get_element_by_point
    (doc : option loc) (x y client_x client_y : float) (st : state)
  : option (option element) :=
  match doc with
  | None => Some None
  | Some h =>
      internal ← internals st !! h;
      sd ← documents st !! internal_doc internal;
      match document_root_render (shared_object sd) with
      | None => Some None
      | Some root_render =>
          let el := render_item_get_element_by_point
                      root_render x y client_x client_y accept_every_candidate in
          Some el
      end
  end.

End Engine.

End Lifecycle.

Arguments state : clear implicits.

(** ** A caller, an engine and a render tree small enough to run

    The caller's state is the list of font handles its [delete_font]
    callback has been given, oldest first. *)

Definition null_vtable {World : Type} : lh_container_vtable_t World :=
  LhContainerVtable None None None None None None None None None None
                    None None None None None None None None None None
                    None None None None None None None None None.

Definition with_delete_font {World : Type}
    (f : option (void_ptr -> uint_ptr -> World -> World))
    (vt : lh_container_vtable_t World) : lh_container_vtable_t World :=
  LhContainerVtable
    (vtable_create_font vt) f (vtable_text_width vt) (vtable_draw_text vt)
    (vtable_pt_to_px vt) (vtable_get_default_font_size vt)
    (vtable_get_default_font_name vt) (vtable_draw_list_marker vt)
    (vtable_load_image vt) (vtable_get_image_size vt) (vtable_draw_image vt)
    (vtable_draw_solid_fill vt) (vtable_draw_linear_gradient vt)
    (vtable_draw_radial_gradient vt) (vtable_draw_conic_gradient vt)
    (vtable_draw_borders vt) (vtable_set_caption vt) (vtable_set_base_url vt)
    (vtable_link vt) (vtable_on_anchor_click vt) (vtable_on_mouse_event vt)
    (vtable_set_cursor vt) (vtable_transform_text vt) (vtable_import_css vt)
    (vtable_set_clip vt) (vtable_del_clip vt) (vtable_get_viewport vt)
    (vtable_get_media_features vt) (vtable_get_language vt).

Definition with_string_callbacks {World : Type}
    (tr : option (void_ptr -> c_str -> Z -> World -> World * list c_str))
    (im : option (void_ptr -> c_str -> c_str -> World -> World * list c_str))
    (vt : lh_container_vtable_t World) : lh_container_vtable_t World :=
  LhContainerVtable
    (vtable_create_font vt) (vtable_delete_font vt) (vtable_text_width vt)
    (vtable_draw_text vt) (vtable_pt_to_px vt) (vtable_get_default_font_size vt)
    (vtable_get_default_font_name vt) (vtable_draw_list_marker vt)
    (vtable_load_image vt) (vtable_get_image_size vt) (vtable_draw_image vt)
    (vtable_draw_solid_fill vt) (vtable_draw_linear_gradient vt)
    (vtable_draw_radial_gradient vt) (vtable_draw_conic_gradient vt)
    (vtable_draw_borders vt) (vtable_set_caption vt) (vtable_set_base_url vt)
    (vtable_link vt) (vtable_on_anchor_click vt) (vtable_on_mouse_event vt)
    (vtable_set_cursor vt) tr im
    (vtable_set_clip vt) (vtable_del_clip vt) (vtable_get_viewport vt)
    (vtable_get_media_features vt) (vtable_get_language vt).

Definition caller : Type := list uint_ptr.

(** [delete_font] records the handle it is given. *)
Definition recording_vtable : lh_container_vtable_t caller :=
  with_delete_font (Some (fun _ hFont w => w ++ [hFont])) null_vtable.

(** String callbacks that return without invoking the setter. *)
Definition silent_vtable : lh_container_vtable_t caller :=
  with_string_callbacks (Some (fun _ _ _ w => (w, [])))
                        (Some (fun _ _ _ w => (w, []))) null_vtable.

(** String callbacks that invoke the setter once, with a null pointer. *)
Definition null_setting_vtable : lh_container_vtable_t caller :=
  with_string_callbacks (Some (fun _ _ _ w => (w, [None])))
                        (Some (fun _ _ _ w => (w, [None]))) null_vtable.

Definition empty_state : state caller := State ∅ ∅ ∅ [] [].

(** An engine that fails to build a document, and one that builds a
    document holding the fonts 7 and 9 for the container it is given. *)
Definition failing_createFromString
    (html : string) (container : loc) (master user : string)
    (heap : gmap loc (CDocumentContainer caller)) (w : caller)
  : caller * option document :=
  (w, None).

Definition two_font_createFromString
    (html : string) (container : loc) (master user : string)
    (heap : gmap loc (CDocumentContainer caller)) (w : caller)
  : caller * option document :=
  (w, Some (Document container [7; 9] None None)).

(** A state with one live document: wrapper 1 owns document 1, which holds
    the fonts 7 and 9 and calls back into container 1. *)
Definition one_document_state : state caller :=
  State {[ 1%positive := CDocumentContainerCtor recording_vtable 0 ]}
        {[ 1%positive := LhDocumentInternal 1%positive 1%positive ]}
        {[ 1%positive := SharedDocument 1 (Document 1%positive [7; 9] None None) ]}
        [] [].

(** A laid-out inline element inside a positioned ancestor: its render item
    sits at (10, 20) in the ancestor's frame and at (110, 220) in the
    document, and spans two lines. *)
Definition px (z : Z) : float := float_of_int z.

Definition two_line_render_item : render_item :=
  RenderItem (Position (px 110) (px 220) (px 50) (px 30))
             (Position (px 10) (px 20) (px 50) (px 30))
             [Position (px 12) (px 20) (px 40) (px 15);
              Position (px 10) (px 35) (px 25) (px 15)].

Definition two_line_element : element :=
  Element [] false (Position (px 110) (px 220) (px 50) (px 30))
          (Some two_line_render_item).

Definition text_element : element :=
  Element [] true (Position (px 0) (px 0) (px 0) (px 0)) None.

Definition filled_position : lh_position_t :=
  LhPosition (px 1) (px 2) (px 3) (px 4).

(** A hit test that knows one element: it reports [text_element] when the
    filter accepts the root render item. *)
Definition one_element_hit_test
    (ri : render_item) (x y client_x client_y : float)
    (filter : render_item -> bool) : option element :=
  if filter ri then Some text_element else None.

Definition hit_test_state : state caller :=
  State {[ 1%positive := CDocumentContainerCtor null_vtable 0 ]}
        {[ 1%positive := LhDocumentInternal 1%positive 1%positive ]}
        {[ 1%positive :=
             SharedDocument 1 (Document 1%positive [] (Some text_element)
                                        (Some two_line_render_item)) ]}
        [] [].

(** A linear gradient with two colour stops. *)
Definition two_stop_gradient : linear_gradient :=
  LinearGradient (PointF (px 0) (px 0)) (PointF (px 100) (px 0))
                 [ColorPoint (px 0) (web_color_ctor 255 0 0 255);
                  ColorPoint (px 1) (web_color_ctor 0 0 255 255)]
                 (EnumValue 0) (EnumValue 0).

(** ** The remaining entry points

    Rendering, drawing, fragment insertion, the mouse entry points and the
    computed-style getters hand their arguments to the engine.  As before
    the engine functions are section variables: a function that lays out,
    paints or reacts to the mouse reads the container heap, changes the
    document it works on and changes the caller's state through the
    callbacks it makes. *)

Section EngineCalls.

Context {World : Type}.

(** The document behind a wrapper, after the engine worked on it. *)
Definition store_document (d : loc) (sd : shared_document) (doc : document)
    (st : state World) : state World :=
  set_documents (insert d (SharedDocument (use_count sd) doc)) st.

(** [document::render(max_width)], [document::draw(hdc, x, y, clip)],
    [width()], [height()], [append_children_from_string(parent, html,
    replace)]. *)
Variable document_render :
  float -> gmap loc (CDocumentContainer World) -> document -> World ->
  World * (document * float).
Variable document_draw :
  uint_ptr -> float -> float -> option position ->
  gmap loc (CDocumentContainer World) -> document -> World -> World * document.
Variable document_width : document -> float.
Variable document_height : document -> float.
Variable document_append_children_from_string :
  element -> string -> bool ->
  gmap loc (CDocumentContainer World) -> document -> World -> World * document.

(** [on_mouse_over], [on_lbutton_down], [on_lbutton_up], [on_mouse_leave]:
    each takes the vector [redraw_boxes] by reference and returns whether
    something changed, with the vector as it left it; [media_changed]. *)
Variable document_on_mouse_over :
  float -> float -> float -> float -> list position ->
  gmap loc (CDocumentContainer World) -> document -> World ->
  World * (document * (bool * list position)).
Variable document_on_lbutton_down :
  float -> float -> float -> float -> list position ->
  gmap loc (CDocumentContainer World) -> document -> World ->
  World * (document * (bool * list position)).
Variable document_on_lbutton_up :
  float -> float -> float -> float -> list position ->
  gmap loc (CDocumentContainer World) -> document -> World ->
  World * (document * (bool * list position)).
Variable document_on_mouse_leave :
  list position ->
  gmap loc (CDocumentContainer World) -> document -> World ->
  World * (document * (bool * list position)).
Variable document_media_changed :
  gmap loc (CDocumentContainer World) -> document -> World ->
  World * (document * bool).

Definition lh_document_render (doc : option loc) (max_width : float)
    (st : state World) : option (float * state World) :=
  match doc with
  | None => Some (float_of_int 0, st)
  | Some h =>
      internal ← internals st !! h;
      sd ← documents st !! internal_doc internal;
      let '(w, (d, height)) :=
        document_render max_width (containers st) (shared_object sd) (world st) in
      Some (height, set_world w (store_document (internal_doc internal) sd d st))
  end.

Definition lh_document_draw (doc : option loc) (hdc : uint_ptr) (x y : float)
    (clip : option lh_position_t) (st : state World) : option (state World) :=
  match doc with
  | None => Some st
  | Some h =>
      internal ← internals st !! h;
      sd ← documents st !! internal_doc internal;
      let '(w, d) :=
        match clip with
        | Some clip =>
            let cpp_clip := to_cpp_position clip in
            document_draw hdc x y (Some cpp_clip)
                          (containers st) (shared_object sd) (world st)
        | None =>
            document_draw hdc x y None
                          (containers st) (shared_object sd) (world st)
        end in
      Some (set_world w (store_document (internal_doc internal) sd d st))
  end.

Definition lh_document_width (doc : option loc) (st : state World)
  : option float :=
  match doc with
  | None => Some (float_of_int 0)
  | Some h =>
      internal ← internals st !! h;
      sd ← documents st !! internal_doc internal;
      Some (document_width (shared_object sd))
  end.

Definition lh_document_height (doc : option loc) (st : state World)
  : option float :=
  match doc with
  | None => Some (float_of_int 0)
  | Some h =>
      internal ← internals st !! h;
      sd ← documents st !! internal_doc internal;
      Some (document_height (shared_object sd))
  end.

Definition lh_document_append_children_from_string
    (doc : option loc) (parent : option element) (html : c_str)
    (replace_existing : Z) (st : state World) : option (state World) :=
  match doc, parent, html with
  | Some h, Some elem, Some html =>
      internal ← internals st !! h;
      sd ← documents st !! internal_doc internal;
      let '(w, d) :=
        document_append_children_from_string
          elem html (bool_of_int replace_existing)
          (containers st) (shared_object sd) (world st) in
      Some (set_world w (store_document (internal_doc internal) sd d st))
  | _, _, _ => Some st
  end.

(** *** Mouse / interaction *)

Definition lh_document_on_mouse_over (doc : option loc)
    (x y client_x client_y : float) (st : state World)
  : option (Z * state World) :=
  match doc with
  | None => Some (0, st)
  | Some h =>
      internal ← internals st !! h;
      sd ← documents st !! internal_doc internal;
      let redraw_boxes : list position := [] in
      let '(w, (d, (changed, redraw_boxes))) :=
        document_on_mouse_over x y client_x client_y redraw_boxes
                               (containers st) (shared_object sd) (world st) in
      Some (int_of_bool changed,
            set_world w (store_document (internal_doc internal) sd d st))
  end.

Definition lh_document_on_lbutton_down (doc : option loc)
    (x y client_x client_y : float) (st : state World)
  : option (Z * state World) :=
  match doc with
  | None => Some (0, st)
  | Some h =>
      internal ← internals st !! h;
      sd ← documents st !! internal_doc internal;
      let redraw_boxes : list position := [] in
      let '(w, (d, (changed, redraw_boxes))) :=
        document_on_lbutton_down x y client_x client_y redraw_boxes
                                 (containers st) (shared_object sd) (world st) in
      Some (int_of_bool changed,
            set_world w (store_document (internal_doc internal) sd d st))
  end.

Definition lh_document_on_lbutton_up (doc : option loc)
    (x y client_x client_y : float) (st : state World)
  : option (Z * state World) :=
  match doc with
  | None => Some (0, st)
  | Some h =>
      internal ← internals st !! h;
      sd ← documents st !! internal_doc internal;
      let redraw_boxes : list position := [] in
      let '(w, (d, (changed, redraw_boxes))) :=
        document_on_lbutton_up x y client_x client_y redraw_boxes
                               (containers st) (shared_object sd) (world st) in
      Some (int_of_bool changed,
            set_world w (store_document (internal_doc internal) sd d st))
  end.

Definition lh_document_on_mouse_leave (doc : option loc) (st : state World)
  : option (Z * state World) :=
  match doc with
  | None => Some (0, st)
  | Some h =>
      internal ← internals st !! h;
      sd ← documents st !! internal_doc internal;
      let redraw_boxes : list position := [] in
      let '(w, (d, (changed, redraw_boxes))) :=
        document_on_mouse_leave redraw_boxes
                                (containers st) (shared_object sd) (world st) in
      Some (int_of_bool changed,
            set_world w (store_document (internal_doc internal) sd d st))
  end.

Definition lh_document_media_changed (doc : option loc) (st : state World)
  : option (Z * state World) :=
  match doc with
  | None => Some (0, st)
  | Some h =>
      internal ← internals st !! h;
      sd ← documents st !! internal_doc internal;
      let '(w, (d, changed)) :=
        document_media_changed (containers st) (shared_object sd) (world st) in
      Some (int_of_bool changed,
            set_world w (store_document (internal_doc internal) sd d st))
  end.

(** *** Element introspection through the engine

    [element::parent()], the computed-style getters behind [css()] and
    [get_text(text)], which appends the element's text to [text]. *)
Variable element_parent : element -> option element.
Variable element_css_get_font : element -> uint_ptr.
Variable element_css_get_font_size : element -> float.
Variable element_css_get_text_align : element -> enum_value.
Variable element_css_line_height_computed_value : element -> float.
Variable element_get_text : element -> string -> string.

Definition lh_element_parent (el : option element) : option element :=
  match el with
  | None => None
  | Some elem =>
      match element_parent elem with
      | None => None
      | Some parent => Some parent
      end
  end.

Definition lh_element_get_font (el : option element) : uint_ptr :=
  match el with
  | None => 0
  | Some elem => element_css_get_font elem
  end.

Definition lh_element_get_font_size (el : option element) : float :=
  match el with
  | None => float_zero
  | Some elem => element_css_get_font_size elem
  end.

(** The callback [cb] works on the caller's state, which it reaches through
    [ctx]. *)
Definition lh_element_get_text (el : option element)
    (cb : option (void_ptr -> c_str -> World -> World)) (ctx : void_ptr)
    (w : World) : World :=
  match el, cb with
  | Some elem, Some cb =>
      let text := EmptyString in
      let text := element_get_text elem text in
      cb ctx (Some text) w
  | _, _ => w
  end.

Definition lh_element_get_text_align (el : option element) : Z :=
  match el with
  | None => 0
  | Some elem => enum_to_int (element_css_get_text_align elem)
  end.

Definition lh_element_get_line_height (el : option element) : float :=
  match el with
  | None => float_zero
  | Some elem => element_css_line_height_computed_value elem
  end.

End EngineCalls.

(** ** More callers and engines to run

    A table with the result-producing callbacks filled in: [create_font]
    returns the handle 42 and leaves the metrics alone, [get_image_size]
    reports 64 by 48, [transform_text] sets a first result and then a
    second, [import_css] sets a stylesheet, [get_viewport] and
    [get_media_features] leave the struct alone, [get_language] sets a
    language and a null culture. *)
Definition filling_vtable : lh_container_vtable_t caller :=
  LhContainerVtable
    (Some (fun _ _ fm w => (w, (42, fm))))
    None None None None None None None None
    (Some (fun _ _ _ _ w => (w, LhSize (float_of_int 64) (float_of_int 48))))
    None None None None None None None None None None None None
    (Some (fun _ _ _ w => (w, [Some "a"%string; Some "B"%string])))
    (Some (fun _ _ _ w => (w, [Some "p{}"%string])))
    None None
    (Some (fun _ viewport w => (w, viewport)))
    (Some (fun _ media w => (w, media)))
    (Some (fun _ w => (w, [(Some "en"%string, None)]))).


Definition screen_features : media_features :=
  MediaFeatures (EnumValue 3) (float_of_int 800) (float_of_int 600)
                (float_of_int 1920) (float_of_int 1080) 8 0 0 (float_of_int 96).

(** An element with two children. *)
Definition parent_element : element :=
  Element [text_element; two_line_element] false
          (Position (px 0) (px 0) (px 200) (px 300)) None.

(** A layout engine that reports the available width as the height and
    leaves the document and the caller alone. *)
Definition echo_render (max_width : float)
    (heap : gmap loc (CDocumentContainer caller)) (d : document) (w : caller)
  : caller * (document * float) :=
  (w, (d, max_width)).

(** An engine that answers every call at once: it paints nothing, inserts
    nothing, reports a change for every mouse event and none for the media
    query, and has a stylesheet type with one value. *)
Definition idle_draw (hdc : uint_ptr) (x y : float) (clip : option position)
    (heap : gmap loc (CDocumentContainer caller)) (d : document) (w : caller)
  : caller * document := (w, d).

Definition idle_append (parent : element) (html : string) (replace : bool)
    (heap : gmap loc (CDocumentContainer caller)) (d : document) (w : caller)
  : caller * document := (w, d).

Definition idle_mouse (x y client_x client_y : float) (boxes : list position)
    (heap : gmap loc (CDocumentContainer caller)) (d : document) (w : caller)
  : caller * (document * (bool * list position)) :=
  (w, (d, (true, Position x y x y :: boxes))).

Definition idle_mouse_leave (boxes : list position)
    (heap : gmap loc (CDocumentContainer caller)) (d : document) (w : caller)
  : caller * (document * (bool * list position)) :=
  (w, (d, (true, boxes))).

Definition idle_media_changed
    (heap : gmap loc (CDocumentContainer caller)) (d : document) (w : caller)
  : caller * (document * bool) := (w, (d, false)).

Definition idle_parse_css (sheet : unit) (css_text baseurl : string)
    (mq : option (list unit))
    (heap : gmap loc (CDocumentContainer caller)) (d : document) (w : caller)
  : caller * (document * unit) := (w, (d, sheet)).

Definition idle_compute_styles
    (heap : gmap loc (CDocumentContainer caller)) (d : document) (w : caller)
  : caller * document := (w, d).

(** Two states hold the same objects: the same containers, the same
    wrappers, the same trace, and documents at the same addresses with the
    same owners. *)
Definition same_objects {World : Type} (st st' : state World) : Prop :=
  containers st' = containers st /\
  internals st' = internals st /\
  trace st' = trace st /\
  forall d : loc, use_count <$> documents st' !! d = use_count <$> documents st !! d.

(** * Properties *)

(** ** C scalars *)

Lemma bool_of_int_of_bool (b : bool) : bool_of_int (int_of_bool b) = b.
Proof. by destruct b. Qed.

Lemma enum_of_int_to_int (e : enum_value) : enum_of_int (enum_to_int e) = e.
Proof. by destruct e. Qed.

Lemma float_of_int_0 : float_of_int 0 = float_zero.
Proof. reflexivity. Qed.

(** Sixteen as a binary32 value: [2^23 * 2^-19]. *)
Lemma float_of_int_16 : float_of_int 16 = S754_finite false 8388608 (-19).
Proof. reflexivity. Qed.

(** A cast size never exceeds the size. *)
Lemma static_cast_int_le (n : Z) : 0 <= n -> static_cast_int n <= n.
Proof.
  intros Hn. unfold static_cast_int.
  assert (H : (n + 2 ^ 31) mod 2 ^ 32 <= n + 2 ^ 31) by (apply Z.mod_le; lia).
  lia.
Qed.

Lemma static_cast_int_small (n : Z) : 0 <= n < 2 ^ 31 -> static_cast_int n = n.
Proof.
  intros Hn. unfold static_cast_int. rewrite Z.mod_small; lia.
Qed.

Section Vectors.

Context {A : Type}.
Implicit Types (v : list A) (idx : Z).

Lemma index_out_of_range_false v idx :
  index_out_of_range v idx = false <-> 0 <= idx < vector_size_int v.
Proof.
  unfold index_out_of_range. rewrite orb_false_iff, Z.ltb_ge, Z.geb_leb, Z.leb_gt.
  tauto.
Qed.

Lemma index_out_of_range_true v idx :
  index_out_of_range v idx = true <-> ~ (0 <= idx < vector_size_int v).
Proof.
  rewrite <- index_out_of_range_false. destruct (index_out_of_range v idx); naive_solver.
Qed.

(** Past the bounds test, [v[idx]] reads an element of [v]. *)
Lemma vector_at_in_range v idx :
  index_out_of_range v idx = false -> is_Some (vector_at v idx).
Proof.
  rewrite index_out_of_range_false. intros [Hlo Hhi].
  apply lookup_lt_is_Some.
  pose proof (static_cast_int_le (Z.of_nat (length v)) ltac:(lia)) as Hle.
  unfold vector_size_int in Hhi. lia.
Qed.

End Vectors.

(** ** Value marshalling *)

Lemma position_round_trip (p : position) : to_cpp_position (to_c_position p) = p.
Proof. by destruct p. Qed.

Lemma size_round_trip (s : size) : to_cpp_size (to_c_size s) = s.
Proof. by destruct s. Qed.

Lemma web_color_round_trip (c : web_color) : to_cpp_web_color (to_c_web_color c) = c.
Proof.
  destruct c as [r g b a cur]. unfold to_cpp_web_color, to_c_web_color; simpl.
  by rewrite bool_of_int_of_bool.
Qed.

Lemma border_radiuses_round_trip (br : border_radiuses) :
  to_cpp_border_radiuses (to_c_border_radiuses br) = br.
Proof. by destruct br. Qed.

Lemma media_features_round_trip (mf out : media_features) :
  from_c_media_features (to_c_media_features mf) out = mf.
Proof.
  destruct mf. unfold from_c_media_features, to_c_media_features; simpl.
  by rewrite enum_of_int_to_int.
Qed.

Lemma font_metrics_round_trip (m out : font_metrics) :
  from_c_font_metrics (to_c_font_metrics m) out = m.
Proof.
  destruct m. unfold from_c_font_metrics, to_c_font_metrics; simpl.
  by rewrite bool_of_int_of_bool.
Qed.

(** C4.  Converting a native value to its flat C struct and back gives the
    value again, field for field, for [position], [size], [web_color],
    [border_radiuses], [media_features] and [font_metrics].  Floats are
    copied as they are (so the law holds for every float, finite or not),
    bytes and ints are copied, a bool goes through [0]/[1] and an
    enumeration through its underlying integer. *)
Theorem marshalling_round_trip :
  (forall p : position, to_cpp_position (to_c_position p) = p) /\
  (forall s : size, to_cpp_size (to_c_size s) = s) /\
  (forall c : web_color, to_cpp_web_color (to_c_web_color c) = c) /\
  (forall br : border_radiuses,
      to_cpp_border_radiuses (to_c_border_radiuses br) = br) /\
  (forall mf out : media_features,
      from_c_media_features (to_c_media_features mf) out = mf) /\
  (forall m out : font_metrics,
      from_c_font_metrics (to_c_font_metrics m) out = m).
Proof.
  repeat split.
  - apply position_round_trip.
  - apply size_round_trip.
  - apply web_color_round_trip.
  - apply border_radiuses_round_trip.
  - apply media_features_round_trip.
  - apply font_metrics_round_trip.
Qed.

(** ** Inline boxes *)

(** C3.  For an element with a render item and an index inside
    [[0, count)], [lh_element_get_inline_box_at] writes the stored box
    number [index] with the one offset vector of the render item,
    [get_placement() - pos()], added to its x and y in float arithmetic;
    width and height are the stored ones. *)
Theorem inline_box_offset_law
    (elem : element) (ri : render_item) (index : Z) (out : lh_position_t) :
  element_get_render_item elem = Some ri ->
  0 <= index < lh_element_get_inline_boxes_count (Some elem) ->
  exists box : position,
    vector_at (render_item_get_inline_boxes ri) index = Some box /\
    lh_element_get_inline_box_at (Some elem) index (Some out) =
      Some (apply_ri_offset ri box).
Proof.
  intros Hri Hidx. unfold lh_element_get_inline_boxes_count in Hidx.
  rewrite Hri in Hidx. apply index_out_of_range_false in Hidx.
  destruct (vector_at_in_range _ _ Hidx) as [box Hbox].
  exists box. split; [done|].
  unfold lh_element_get_inline_box_at. rewrite Hri, Hidx. simpl.
  by rewrite Hbox.
Qed.

Lemma inline_box_offset_law_witness :
  exists box : position,
    vector_at (render_item_get_inline_boxes two_line_render_item) 1 = Some box /\
    lh_element_get_inline_box_at (Some two_line_element) 1 (Some lh_position_zero) =
      Some (apply_ri_offset two_line_render_item box).
Proof.
  apply (inline_box_offset_law two_line_element two_line_render_item 1
                               lh_position_zero).
  - reflexivity.
  - vm_compute. split; [discriminate | reflexivity].
Defined.

(** The second line of [two_line_element]: stored at (10, 35), reported at
    (110, 235), the size unchanged. *)
Example inline_box_second_line :
  lh_element_get_inline_box_at (Some two_line_element) 1 (Some lh_position_zero) =
    Some (LhPosition (px 110) (px 235) (px 25) (px 15)).
Proof. reflexivity. Qed.

(** ** Index accessors *)

Lemma child_at_out_of_range (el : option element) (index : Z) :
  ~ (0 <= index < lh_element_children_count el) -> lh_element_child_at el index = None.
Proof.
  destruct el as [elem|]; [|done]. simpl. intros H.
  apply index_out_of_range_true in H. by rewrite H.
Qed.

Lemma inline_box_at_out_of_range
    (el : option element) (index : Z) (pos : option lh_position_t) :
  ~ (0 <= index < lh_element_get_inline_boxes_count el) ->
  lh_element_get_inline_box_at el index pos = pos.
Proof.
  destruct el as [elem|]; [|done]. destruct pos as [p|]; [|done]. simpl.
  destruct (element_get_render_item elem) as [ri|]; [|done].
  intros H. apply index_out_of_range_true in H. by rewrite H.
Qed.

(** C7, as amended.  For an index outside [[0, count)], with [count] the
    value of the matching count accessor: the gradient colour-point
    accessors return [0.0f] and the all-zero colour, [lh_element_child_at]
    returns null, and [lh_element_get_inline_box_at] returns without
    writing, so [*pos] keeps the contents it had. *)
Theorem index_accessors_out_of_range :
  (forall (g : option linear_gradient) (idx : Z),
      ~ (0 <= idx < lh_linear_gradient_color_points_count g) ->
      lh_linear_gradient_color_point_offset g idx = float_zero /\
      lh_linear_gradient_color_point_color g idx = lh_web_color_zero) /\
  (forall (g : option radial_gradient) (idx : Z),
      ~ (0 <= idx < lh_radial_gradient_color_points_count g) ->
      lh_radial_gradient_color_point_offset g idx = float_zero /\
      lh_radial_gradient_color_point_color g idx = lh_web_color_zero) /\
  (forall (g : option conic_gradient) (idx : Z),
      ~ (0 <= idx < lh_conic_gradient_color_points_count g) ->
      lh_conic_gradient_color_point_offset g idx = float_zero /\
      lh_conic_gradient_color_point_color g idx = lh_web_color_zero) /\
  (forall (el : option element) (index : Z),
      ~ (0 <= index < lh_element_children_count el) ->
      lh_element_child_at el index = None) /\
  (forall (el : option element) (index : Z) (pos : option lh_position_t),
      ~ (0 <= index < lh_element_get_inline_boxes_count el) ->
      lh_element_get_inline_box_at el index pos = pos).
Proof.
  split_and!.
  - intros [lg|] idx H; [|done].
    apply index_out_of_range_true in H. simpl. by rewrite H.
  - intros [rg|] idx H; [|done].
    apply index_out_of_range_true in H. simpl. by rewrite H.
  - intros [cg|] idx H; [|done].
    apply index_out_of_range_true in H. simpl. by rewrite H.
  - apply child_at_out_of_range.
  - apply inline_box_at_out_of_range.
Qed.

Lemma index_accessors_out_of_range_witness :
  (lh_linear_gradient_color_point_offset (Some two_stop_gradient) 2 = float_zero /\
   lh_linear_gradient_color_point_color (Some two_stop_gradient) (-1) =
     lh_web_color_zero) /\
  lh_element_child_at (Some two_line_element) 0 = None /\
  lh_element_get_inline_box_at (Some two_line_element) 2 (Some filled_position) =
    Some filled_position.
Proof.
  destruct index_accessors_out_of_range as (Hlinear & _ & _ & Hchild & Hbox).
  split_and!.
  - apply (Hlinear (Some two_stop_gradient) 2). vm_compute. intros [_ H]. done.
  - apply (Hlinear (Some two_stop_gradient) (-1)). vm_compute. intros [H _]. done.
  - apply (Hchild (Some two_line_element) 0). vm_compute. intros [_ H]. done.
  - apply (Hbox (Some two_line_element) 2 (Some filled_position)).
    vm_compute. intros [_ H]. done.
Defined.

(** C7, as stated, fails at [lh_element_get_inline_box_at]: index 2 is out
    of range for an element with two inline boxes, and the call leaves the
    caller's [*pos] as it was instead of writing zeros. *)
Lemma inline_box_at_out_of_range_not_zeroed :
  ~ (0 <= 2 < lh_element_get_inline_boxes_count (Some two_line_element)) /\
  lh_element_get_inline_box_at (Some two_line_element) 2 (Some filled_position) =
    Some filled_position /\
  Some filled_position <> Some lh_position_zero.
Proof.
  split_and!.
  - vm_compute. intros [_ H]. done.
  - reflexivity.
  - discriminate.
Qed.

(** Inside the range the accessors read the stored colour point. *)
Example second_color_stop :
  lh_linear_gradient_color_points_count (Some two_stop_gradient) = 2 /\
  lh_linear_gradient_color_point_offset (Some two_stop_gradient) 1 = px 1 /\
  lh_linear_gradient_color_point_color (Some two_stop_gradient) 1 =
    LhWebColor 0 0 255 255 0.
Proof. split_and!; reflexivity. Qed.

(** ** Null descriptors *)

(** C6, as amended.  With a null descriptor every accessor returns at once:
    the empty string, the all-zero struct or zero, except
    [lh_font_description_decoration_thickness_is_predefined], which
    returns 1. *)
Theorem null_descriptor_defaults :
  (lh_font_description_family None = Some EmptyString /\
   lh_font_description_size None = float_zero /\
   lh_font_description_style None = 0 /\
   lh_font_description_weight None = 0 /\
   lh_font_description_decoration_line None = 0 /\
   lh_font_description_decoration_thickness_is_predefined None = 1 /\
   lh_font_description_decoration_thickness_predef None = 0 /\
   lh_font_description_decoration_thickness_value None = float_zero /\
   lh_font_description_decoration_style None = 0 /\
   lh_font_description_decoration_color None = lh_web_color_zero /\
   lh_font_description_emphasis_style None = Some EmptyString /\
   lh_font_description_emphasis_color None = lh_web_color_zero /\
   lh_font_description_emphasis_position None = 0) /\
  (lh_list_marker_image None = Some EmptyString /\
   lh_list_marker_baseurl None = Some EmptyString /\
   lh_list_marker_type None = 0 /\
   lh_list_marker_color None = lh_web_color_zero /\
   lh_list_marker_pos None = lh_position_zero /\
   lh_list_marker_index None = 0 /\
   lh_list_marker_font None = 0) /\
  (lh_background_layer_border_box None = lh_position_zero /\
   lh_background_layer_border_radius None = lh_border_radiuses_zero /\
   lh_background_layer_clip_box None = lh_position_zero /\
   lh_background_layer_origin_box None = lh_position_zero /\
   lh_background_layer_attachment None = 0 /\
   lh_background_layer_repeat None = 0 /\
   lh_background_layer_is_root None = 0) /\
  (lh_linear_gradient_start None = lh_point_zero /\
   lh_linear_gradient_end None = lh_point_zero /\
   lh_linear_gradient_color_points_count None = 0 /\
   (forall idx, lh_linear_gradient_color_point_offset None idx = float_zero) /\
   (forall idx, lh_linear_gradient_color_point_color None idx = lh_web_color_zero) /\
   lh_linear_gradient_color_space None = 0 /\
   lh_linear_gradient_hue_interpolation None = 0) /\
  (lh_radial_gradient_position None = lh_point_zero /\
   lh_radial_gradient_radius None = lh_point_zero /\
   lh_radial_gradient_color_points_count None = 0 /\
   (forall idx, lh_radial_gradient_color_point_offset None idx = float_zero) /\
   (forall idx, lh_radial_gradient_color_point_color None idx = lh_web_color_zero) /\
   lh_radial_gradient_color_space None = 0 /\
   lh_radial_gradient_hue_interpolation None = 0) /\
  (lh_conic_gradient_position None = lh_point_zero /\
   lh_conic_gradient_angle None = float_zero /\
   lh_conic_gradient_radius None = float_zero /\
   lh_conic_gradient_color_points_count None = 0 /\
   (forall idx, lh_conic_gradient_color_point_offset None idx = float_zero) /\
   (forall idx, lh_conic_gradient_color_point_color None idx = lh_web_color_zero) /\
   lh_conic_gradient_color_space None = 0 /\
   lh_conic_gradient_hue_interpolation None = 0).
Proof. split_and!; reflexivity. Qed.

(** C6, as stated, fails at
    [lh_font_description_decoration_thickness_is_predefined]: its result
    for a null descriptor is not zero. *)
Lemma null_is_predefined_not_zero :
  lh_font_description_decoration_thickness_is_predefined None <> 0.
Proof. discriminate. Qed.

(** ** The adapter with null table entries *)

Create HintDb adapter discriminated.

#[local] Hint Unfold
  CDocumentContainer_delete_font CDocumentContainer_text_width
  CDocumentContainer_draw_text CDocumentContainer_pt_to_px
  CDocumentContainer_get_default_font_size
  CDocumentContainer_get_default_font_name
  CDocumentContainer_draw_list_marker CDocumentContainer_load_image
  CDocumentContainer_draw_image CDocumentContainer_draw_solid_fill
  CDocumentContainer_draw_linear_gradient
  CDocumentContainer_draw_radial_gradient
  CDocumentContainer_draw_conic_gradient CDocumentContainer_draw_borders
  CDocumentContainer_set_caption CDocumentContainer_set_base_url
  CDocumentContainer_link CDocumentContainer_on_anchor_click
  CDocumentContainer_on_mouse_event CDocumentContainer_set_cursor
  CDocumentContainer_set_clip CDocumentContainer_del_clip : adapter.

(** A method whose table entry is null: unfold it and read its fallback. *)
Ltac null_entry :=
  let H := fresh "Hnull" in
  intros H; intros; autounfold with adapter; rewrite H; reflexivity.

Section AdapterProperties.

Context {World : Type}.
Implicit Types (c : CDocumentContainer World) (w : World).

(** C5.  With a null table entry the adapter method makes no call and
    gives the fallback: [pt_to_px] its argument, [get_default_font_size]
    16, [get_default_font_name] "serif", [text_width] zero; every drawing
    and notification method returns with the caller's state untouched. *)
Theorem null_entry_defaults c w :
  (vtable_pt_to_px (vtable c) = None ->
   forall pt, CDocumentContainer_pt_to_px c pt w = (w, pt)) /\
  (vtable_get_default_font_size (vtable c) = None ->
   CDocumentContainer_get_default_font_size c w = (w, float_of_int 16)) /\
  (vtable_get_default_font_name (vtable c) = None ->
   CDocumentContainer_get_default_font_name c w = (w, Some "serif"%string)) /\
  (vtable_text_width (vtable c) = None ->
   forall text hFont, CDocumentContainer_text_width c text hFont w = (w, float_zero)) /\
  (vtable_draw_text (vtable c) = None ->
   forall hdc text hFont color pos,
     CDocumentContainer_draw_text c hdc text hFont color pos w = w) /\
  (vtable_draw_list_marker (vtable c) = None ->
   forall hdc marker, CDocumentContainer_draw_list_marker c hdc marker w = w) /\
  (vtable_draw_image (vtable c) = None ->
   forall hdc layer url base_url,
     CDocumentContainer_draw_image c hdc layer url base_url w = w) /\
  (vtable_draw_solid_fill (vtable c) = None ->
   forall hdc layer color,
     CDocumentContainer_draw_solid_fill c hdc layer color w = w) /\
  (vtable_draw_linear_gradient (vtable c) = None ->
   forall hdc layer gradient,
     CDocumentContainer_draw_linear_gradient c hdc layer gradient w = w) /\
  (vtable_draw_radial_gradient (vtable c) = None ->
   forall hdc layer gradient,
     CDocumentContainer_draw_radial_gradient c hdc layer gradient w = w) /\
  (vtable_draw_conic_gradient (vtable c) = None ->
   forall hdc layer gradient,
     CDocumentContainer_draw_conic_gradient c hdc layer gradient w = w) /\
  (vtable_draw_borders (vtable c) = None ->
   forall hdc b draw_pos root,
     CDocumentContainer_draw_borders c hdc b draw_pos root w = w) /\
  (vtable_set_clip (vtable c) = None ->
   forall pos bdr_radius, CDocumentContainer_set_clip c pos bdr_radius w = w) /\
  (vtable_del_clip (vtable c) = None -> CDocumentContainer_del_clip c w = w) /\
  (vtable_delete_font (vtable c) = None ->
   forall hFont, CDocumentContainer_delete_font c hFont w = w) /\
  (vtable_load_image (vtable c) = None ->
   forall src baseurl redraw_on_ready,
     CDocumentContainer_load_image c src baseurl redraw_on_ready w = w) /\
  (vtable_set_caption (vtable c) = None ->
   forall caption, CDocumentContainer_set_caption c caption w = w) /\
  (vtable_set_base_url (vtable c) = None ->
   forall base_url, CDocumentContainer_set_base_url c base_url w = w) /\
  (vtable_link (vtable c) = None -> CDocumentContainer_link c w = w) /\
  (vtable_on_anchor_click (vtable c) = None ->
   forall url, CDocumentContainer_on_anchor_click c url w = w) /\
  (vtable_on_mouse_event (vtable c) = None ->
   forall event, CDocumentContainer_on_mouse_event c event w = w) /\
  (vtable_set_cursor (vtable c) = None ->
   forall cursor, CDocumentContainer_set_cursor c cursor w = w).
Proof. split_and!; null_entry. Qed.

(** The remaining methods with a null entry: [create_font] returns the
    handle 0, the others leave the value they were to fill as it was. *)
Lemma null_entry_leaves_arguments c w :
  (vtable_create_font (vtable c) = None ->
   forall descr fm, CDocumentContainer_create_font c descr fm w = (w, (0, fm))) /\
  (vtable_get_image_size (vtable c) = None ->
   forall src baseurl sz,
     CDocumentContainer_get_image_size c src baseurl sz w = (w, sz)) /\
  (vtable_transform_text (vtable c) = None ->
   forall text tt, CDocumentContainer_transform_text c text tt w = (w, text)) /\
  (vtable_import_css (vtable c) = None ->
   forall text url baseurl,
     CDocumentContainer_import_css c text url baseurl w = (w, text)) /\
  (vtable_get_viewport (vtable c) = None ->
   forall viewport, CDocumentContainer_get_viewport c viewport w = (w, viewport)) /\
  (vtable_get_media_features (vtable c) = None ->
   forall media, CDocumentContainer_get_media_features c media w = (w, media)) /\
  (vtable_get_language (vtable c) = None ->
   forall language culture,
     CDocumentContainer_get_language c language culture w =
       (w, (language, culture))).
Proof.
  split_and!; intros H; intros.
  - unfold CDocumentContainer_create_font. by rewrite H.
  - unfold CDocumentContainer_get_image_size. by rewrite H.
  - unfold CDocumentContainer_transform_text. by rewrite H.
  - unfold CDocumentContainer_import_css. by rewrite H.
  - unfold CDocumentContainer_get_viewport. by rewrite H.
  - unfold CDocumentContainer_get_media_features. by rewrite H.
  - unfold CDocumentContainer_get_language. by rewrite H.
Qed.

(** ** String return bridge *)

(** The string left in the result after a run of setter calls: what the
    last call set, or the initial contents when there was no call. *)
Lemma set_string_result_calls (calls : list c_str) (init : string) :
  fold_left set_string_result calls init =
    match last calls with
    | Some r => string_or_empty r
    | None => init
    end.
Proof.
  revert init. induction calls as [|r calls IH] using rev_ind; intros init.
  - reflexivity.
  - rewrite fold_left_app, last_snoc. reflexivity.
Qed.

(** C8, as amended.  Through the string return bridge the engine receives:
    the empty string when the callback's (last) setter call passed null,
    for [transform_text] and [import_css] alike; the empty string when
    [import_css] never invoked the setter; the text it passed in, unchanged,
    when [transform_text] never invoked the setter. *)
Theorem string_return_bridge c w w' (calls : list c_str) :
  (forall cb text tt,
      vtable_transform_text (vtable c) = Some cb ->
      cb (user_data c) (Some text) (enum_to_int tt) w = (w', calls) ->
      (last calls = Some None ->
       CDocumentContainer_transform_text c text tt w = (w', EmptyString)) /\
      (calls = [] ->
       CDocumentContainer_transform_text c text tt w = (w', text))) /\
  (forall cb text url baseurl,
      vtable_import_css (vtable c) = Some cb ->
      cb (user_data c) (Some url) (Some baseurl) w = (w', calls) ->
      (last calls = Some None ->
       CDocumentContainer_import_css c text url baseurl w = (w', EmptyString)) /\
      (calls = [] ->
       CDocumentContainer_import_css c text url baseurl w = (w', EmptyString))).
Proof.
  split.
  - intros cb text tt Hcb Hrun. unfold CDocumentContainer_transform_text.
    rewrite Hcb, Hrun, set_string_result_calls.
    split; [by intros -> | by intros ->].
  - intros cb text url baseurl Hcb Hrun. unfold CDocumentContainer_import_css.
    rewrite Hcb, Hrun, set_string_result_calls.
    split; [by intros -> | by intros ->].
Qed.

End AdapterProperties.

Lemma null_entry_defaults_witness :
  let c := CDocumentContainerCtor (@null_vtable caller) 0 in
  let w : caller := [3] in
  (forall pt, CDocumentContainer_pt_to_px c pt w = (w, pt)) /\
  CDocumentContainer_get_default_font_size c w = (w, float_of_int 16) /\
  CDocumentContainer_get_default_font_name c w = (w, Some "serif"%string) /\
  (forall text hFont, CDocumentContainer_text_width c text hFont w = (w, float_zero)) /\
  (forall hdc text hFont color pos,
      CDocumentContainer_draw_text c hdc text hFont color pos w = w) /\
  (forall caption, CDocumentContainer_set_caption c caption w = w).
Proof.
  intros c w.
  destruct (null_entry_defaults c w)
    as (Hpx & Hsize & Hname & Hwidth & Hdraw & _ & _ & _ & _ & _ & _ & _ & _ & _
        & _ & _ & Hcaption & _).
  split_and!.
  - apply Hpx. reflexivity.
  - apply Hsize. reflexivity.
  - apply Hname. reflexivity.
  - apply Hwidth. reflexivity.
  - apply Hdraw. reflexivity.
  - apply Hcaption. reflexivity.
Defined.

Lemma string_return_bridge_witness :
  let quiet := CDocumentContainerCtor silent_vtable 0 in
  let nulling := CDocumentContainerCtor null_setting_vtable 0 in
  CDocumentContainer_transform_text nulling "abc" (EnumValue 1) [] = ([], EmptyString) /\
  CDocumentContainer_import_css nulling "old" "a.css" "http://h/" [] = ([], EmptyString) /\
  CDocumentContainer_transform_text quiet "abc" (EnumValue 1) [] = ([], "abc"%string) /\
  CDocumentContainer_import_css quiet "old" "a.css" "http://h/" [] = ([], EmptyString).
Proof.
  intros quiet nulling.
  destruct (string_return_bridge nulling [] [] [None]) as [Htr Him].
  destruct (string_return_bridge quiet [] [] []) as [Htr' Him'].
  split_and!.
  - exact (proj1 (Htr _ "abc"%string (EnumValue 1) eq_refl eq_refl) eq_refl).
  - exact (proj1 (Him _ "old"%string "a.css"%string "http://h/"%string
                      eq_refl eq_refl) eq_refl).
  - exact (proj2 (Htr' _ "abc"%string (EnumValue 1) eq_refl eq_refl) eq_refl).
  - exact (proj2 (Him' _ "old"%string "a.css"%string "http://h/"%string
                       eq_refl eq_refl) eq_refl).
Defined.

(** C8, as stated, fails at [transform_text]: a callback that returns
    without invoking the setter leaves the engine's text as it was, not
    empty. *)
Lemma transform_text_unset_keeps_text :
  (exists cb, vtable_transform_text silent_vtable = Some cb /\
              forall ud text tt w, snd (cb ud text tt w) = []) /\
  CDocumentContainer_transform_text (CDocumentContainerCtor silent_vtable 0)
                                    "abc" (EnumValue 1) [] = ([], "abc"%string) /\
  "abc"%string <> EmptyString.
Proof.
  split_and!.
  - eexists. split; [reflexivity|]. reflexivity.
  - reflexivity.
  - discriminate.
Qed.

(** ** Document lifecycle *)

Section LifecycleProperties.

Context {World : Type}.
Implicit Types (st : state World) (c d h : loc).

Lemma state_eta st :
  State (containers st) (internals st) (documents st) (world st) (trace st) = st.
Proof. by destruct st. Qed.

(** While the container is alive, the document's destructor reaches it for
    every font, in order, and touches nothing but the caller's state. *)
Lemma document_dtor_fonts_alive c obj fonts st :
  containers st !! c = Some obj ->
  document_dtor_fonts c fonts st =
    Some (State (containers st) (internals st) (documents st)
                (teardown_world obj fonts (world st))
                (trace st ++ map (EvDeleteFont c) fonts)).
Proof.
  revert st. induction fonts as [|hFont fonts IH]; intros st Hc; simpl.
  - by rewrite app_nil_r, state_eta.
  - unfold container_delete_font. rewrite Hc. simpl.
    rewrite IH by done. simpl. by rewrite <- app_assoc.
Qed.

(** Once the container is gone, a destructor with a font to release uses a
    dangling pointer. *)
Lemma document_dtor_fonts_dangling c hFont fonts st :
  containers st !! c = None ->
  document_dtor_fonts c (hFont :: fonts) st = None.
Proof.
  intros Hc. simpl. unfold container_delete_font. by rewrite Hc.
Qed.

Lemma shared_ptr_release_alive d sd obj st :
  documents st !! d = Some sd ->
  containers st !! document_container (shared_object sd) = Some obj ->
  shared_ptr_release d st =
    Some (State (containers st) (internals st)
                (release_documents d sd (documents st))
                (release_world obj sd (world st))
                (trace st ++ EvDocumentReleased d :: release_events sd)).
Proof.
  intros Hd Hc. unfold shared_ptr_release, release_documents, release_world,
    release_events. rewrite Hd. simpl.
  destruct (use_count sd <=? 1)%nat; [|done].
  unfold document_dtor. erewrite document_dtor_fonts_alive by exact Hc.
  simpl. by rewrite <- app_assoc.
Qed.

(** C1.  For a handle whose wrapper, document and container are alive and
    paired, [lh_document_destroy] first drops the wrapper's document
    pointer: every [delete_font] the document's destructor makes finds the
    container alive, and after that step the container is still in the heap
    as it was.  Only then is the container deleted.  In the trace the
    release of the document and its teardown callbacks all come before the
    deletion of the container. *)
Theorem destroy_releases_document_before_container
    st h d c (sd : shared_document) (obj : CDocumentContainer World) :
  internals st !! h = Some (LhDocumentInternal d c) ->
  documents st !! d = Some sd ->
  document_container (shared_object sd) = c ->
  containers st !! c = Some obj ->
  exists st1 st2 : state World,
    delete_lh_document_internal h st = Some st1 /\
    st1 = State (containers st) (delete h (internals st))
                (release_documents d sd (documents st))
                (release_world obj sd (world st))
                (trace st ++ EvDocumentReleased d :: release_events sd) /\
    containers st1 !! c = Some obj /\
    delete_CDocumentContainer c st1 = Some st2 /\
    lh_document_destroy (Some h) st = Some st2 /\
    containers st2 = delete c (containers st) /\
    trace st2 =
      trace st ++ EvDocumentReleased d :: release_events sd
               ++ [EvContainerDeleted c].
Proof.
  intros Hh Hd Hpair Hc. subst c.
  eexists _, _.
  assert (Hstep : delete_lh_document_internal h st =
                  Some (State (containers st) (delete h (internals st))
                              (release_documents d sd (documents st))
                              (release_world obj sd (world st))
                              (trace st ++ EvDocumentReleased d :: release_events sd))).
  { unfold delete_lh_document_internal. rewrite Hh. simpl.
    by erewrite shared_ptr_release_alive. }
  split_and!.
  - exact Hstep.
  - reflexivity.
  - exact Hc.
  - unfold delete_CDocumentContainer. simpl. rewrite Hc. reflexivity.
  - unfold lh_document_destroy. rewrite Hh. simpl. rewrite Hstep. simpl.
    unfold delete_CDocumentContainer. simpl. rewrite Hc. reflexivity.
  - reflexivity.
  - simpl. by rewrite <- app_assoc.
Qed.

(** Had the container been deleted first, the release of the last document
    pointer would call [delete_font] on a dangling container. *)
Remark container_first_then_document_faults
    st h d c (sd : shared_document) (obj : CDocumentContainer World) :
  internals st !! h = Some (LhDocumentInternal d c) ->
  documents st !! d = Some sd ->
  document_container (shared_object sd) = c ->
  containers st !! c = Some obj ->
  (use_count sd <= 1)%nat ->
  document_fonts (shared_object sd) <> [] ->
  exists st1 : state World,
    delete_CDocumentContainer c st = Some st1 /\
    delete_lh_document_internal h st1 = None.
Proof.
  intros Hh Hd Hpair Hc Hlast Hfonts. subst c.
  eexists. split.
  - unfold delete_CDocumentContainer. rewrite Hc. reflexivity.
  - unfold delete_lh_document_internal. simpl. rewrite Hh. simpl.
    unfold shared_ptr_release. simpl. rewrite Hd. simpl.
    apply Nat.leb_le in Hlast. rewrite Hlast.
    unfold document_dtor.
    destruct (document_fonts (shared_object sd)) as [|hFont fonts]; [done|].
    rewrite document_dtor_fonts_dangling; [done|].
    simpl. apply lookup_delete_eq.
Qed.

Section EngineProperties.

Variable litehtml_master_css : string.
Variable document_createFromString :
  string -> loc -> string -> string ->
  gmap loc (CDocumentContainer World) -> World -> World * option document.
Variable css : Type.
Variable css_ctor : css.
Variable media_query_list : Type.
Variable parse_media_query_list : string -> document -> media_query_list.
Variable css_parse_css_stylesheet :
  css -> string -> string -> option (list media_query_list) ->
  gmap loc (CDocumentContainer World) -> document -> World ->
  World * (document * css).
Variable css_sort_selectors : css -> css.
Variable element_apply_stylesheet : css -> document -> document.
Variable element_compute_styles :
  gmap loc (CDocumentContainer World) -> document -> World -> World * document.
Variable render_item_get_element_by_point :
  render_item -> float -> float -> float -> float ->
  (render_item -> bool) -> option element.

Local Abbreviation create_from_string :=
  (lh_document_create_from_string litehtml_master_css document_createFromString).
Local Abbreviation add_stylesheet :=
  (lh_document_add_stylesheet css css_ctor media_query_list
     parse_media_query_list css_parse_css_stylesheet css_sort_selectors
     element_apply_stylesheet element_compute_styles).
Local Abbreviation get_element_by_point :=
  (lh_document_get_element_by_point render_item_get_element_by_point).

Lemma fresh_container_unused st : containers st !! fresh (dom (containers st)) = None.
Proof. apply not_elem_of_dom, is_fresh. Qed.

Lemma create_from_string_created_state
    (html : string) (vt : lh_container_vtable_t World) (ud : void_ptr)
    (master_css user_styles : c_str) st (w' : World) (r : option document) :
  document_createFromString html (fresh (dom (containers st)))
    (default litehtml_master_css master_css) (string_or_empty user_styles)
    (<[fresh (dom (containers st)) := CDocumentContainerCtor vt ud]> (containers st))
    (world st) = (w', r) ->
  create_from_string (Some html) (Some vt) ud master_css user_styles st =
    Some (created_state vt ud st w' r).
Proof.
  intros Hengine.
  unfold lh_document_create_from_string, new_CDocumentContainer, created_state.
  simpl.
  replace (match master_css with Some s => s | None => litehtml_master_css end)
    with (default litehtml_master_css master_css) by (by destruct master_css).
  rewrite Hengine.
  destruct r as [d|]; simpl.
  - reflexivity.
  - unfold delete_CDocumentContainer. simpl.
    rewrite lookup_insert_eq. simpl. unfold log_event, set_containers. simpl.
    rewrite delete_insert_id by apply fresh_container_unused.
    by rewrite <- app_assoc.
Qed.

(** C2.  With non-null [html] and [vtable], the container is created
    first, at an address that was free.  When the engine returns no
    document, the function deletes that container and returns null: the
    three heaps are what they were before the call.  When the engine returns
    a document, the function returns a fresh non-null handle whose wrapper
    owns the document (as its one owner) and points to the container. *)
Theorem create_from_string_outcomes
    (html : string) (vt : lh_container_vtable_t World) (ud : void_ptr)
    (master_css user_styles : c_str) st (w' : World) (r : option document) :
  let container := fresh (dom (containers st)) in
  let heap := <[container := CDocumentContainerCtor vt ud]> (containers st) in
  let doc := fresh (dom (documents st)) in
  let internal := fresh (dom (internals st)) in
  document_createFromString html container
    (default litehtml_master_css master_css) (string_or_empty user_styles)
    heap (world st) = (w', r) ->
  containers st !! container = None /\
  internals st !! internal = None /\
  documents st !! doc = None /\
  create_from_string (Some html) (Some vt) ud master_css user_styles st =
    match r with
    | None =>
        Some (None,
              State (containers st) (internals st) (documents st) w'
                    (trace st ++ [EvContainerCreated container;
                                  EvContainerDeleted container]))
    | Some d =>
        Some (Some internal,
              State heap
                    (<[internal := LhDocumentInternal doc container]> (internals st))
                    (<[doc := SharedDocument 1 d]> (documents st))
                    w'
                    (trace st ++ [EvContainerCreated container]))
    end.
Proof.
  intros container heap doc internal Hengine.
  split_and!; try (apply not_elem_of_dom, is_fresh).
  rewrite (create_from_string_created_state _ _ _ _ _ _ _ _ Hengine).
  unfold created_state. by destruct r.
Qed.

(** A handle that creation returned is alive and paired, as long as the
    engine's document calls back into the container it was created with:
    it meets what [lh_document_destroy] asks of a handle. *)
Lemma created_handle_is_paired
    (html : string) (vt : lh_container_vtable_t World) (ud : void_ptr)
    (master_css user_styles : c_str) st (w' : World) (d : document) :
  let container := fresh (dom (containers st)) in
  document_createFromString html container
    (default litehtml_master_css master_css) (string_or_empty user_styles)
    (<[container := CDocumentContainerCtor vt ud]> (containers st))
    (world st) = (w', Some d) ->
  document_container d = container ->
  exists (h doc : loc) (st' : state World),
    create_from_string (Some html) (Some vt) ud master_css user_styles st =
      Some (Some h, st') /\
    internals st' !! h = Some (LhDocumentInternal doc container) /\
    documents st' !! doc = Some (SharedDocument 1 d) /\
    document_container (shared_object (SharedDocument 1 d)) = container /\
    containers st' !! container = Some (CDocumentContainerCtor vt ud).
Proof.
  intros container Hengine Hpair.
  rewrite (create_from_string_created_state _ _ _ _ _ _ _ _ Hengine).
  unfold created_state. eexists _, _, _. split; [reflexivity|]. simpl.
  split_and!; [apply lookup_insert_eq | apply lookup_insert_eq | exact Hpair
              | apply lookup_insert_eq].
Qed.

(** With a null [html] or a null [vtable] nothing is constructed. *)
Lemma create_from_string_null_arguments
    (html : c_str) (vt : option (lh_container_vtable_t World)) (ud : void_ptr)
    (master_css user_styles : c_str) st :
  html = None \/ vt = None ->
  create_from_string html vt ud master_css user_styles st = Some (None, st).
Proof.
  intros [-> | ->]; [done|]. by destruct html.
Qed.

(** C10.  With a null [css_text], or one whose first byte is zero,
    [lh_document_add_stylesheet] returns at once, whatever the handle, the
    base URL and the media string are: no engine function is applied (the
    result is the same for every engine) and the state, with the document,
    the caller's state and the trace in it, is the one it was given. *)
Theorem add_stylesheet_null_or_empty_css
    (doc : option loc) (baseurl media : c_str) st :
  add_stylesheet doc None baseurl media st = Some st /\
  add_stylesheet doc (Some EmptyString) baseurl media st = Some st.
Proof.
  split; by destruct doc.
Qed.

(** C9.  For a live handle, [lh_document_get_element_by_point] hands the
    engine a filter that accepts every candidate, and returns what the
    engine's query on the root render item returns for the same four
    coordinates; it returns null when the handle is null, when there is no
    root render item, or when the engine finds no element.  Whatever the
    engine guarantees for all-accepting filters ([deepest_at]: the result
    is the deepest element whose box contains the point) therefore holds
    of the function's result. *)
Theorem get_element_by_point_accepts_every_candidate
    st h (internal : lh_document_internal) (sd : shared_document)
    (x y client_x client_y : float) :
  internals st !! h = Some internal ->
  documents st !! internal_doc internal = Some sd ->
  (forall ri, accept_every_candidate ri = true) /\
  get_element_by_point None x y client_x client_y st = Some None /\
  get_element_by_point (Some h) x y client_x client_y st =
    Some (match document_root_render (shared_object sd) with
          | None => None
          | Some root_render =>
              render_item_get_element_by_point
                root_render x y client_x client_y accept_every_candidate
          end) /\
  (forall (deepest_at : render_item -> float -> float -> float -> float ->
                        option element -> Prop)
          (root_render : render_item),
      (forall ri px py pcx pcy filter,
          (forall candidate, filter candidate = true) ->
          deepest_at ri px py pcx pcy
                     (render_item_get_element_by_point ri px py pcx pcy filter)) ->
      document_root_render (shared_object sd) = Some root_render ->
      exists el : option element,
        get_element_by_point (Some h) x y client_x client_y st = Some el /\
        deepest_at root_render x y client_x client_y el).
Proof.
  intros Hh Hd.
  assert (Hcall : get_element_by_point (Some h) x y client_x client_y st =
                  Some (match document_root_render (shared_object sd) with
                        | None => None
                        | Some root_render =>
                            render_item_get_element_by_point
                              root_render x y client_x client_y
                              accept_every_candidate
                        end)).
  { unfold lh_document_get_element_by_point. rewrite Hh. simpl. rewrite Hd. simpl.
    by destruct (document_root_render (shared_object sd)). }
  split_and!; [done | done | exact Hcall |].
  intros deepest_at root_render Hengine Hroot.
  rewrite Hcall, Hroot. eexists. split; [reflexivity|].
  by apply Hengine.
Qed.

End EngineProperties.

End LifecycleProperties.

Lemma destroy_releases_document_before_container_witness :
  exists st2 : state caller,
    lh_document_destroy (Some 1%positive) one_document_state = Some st2 /\
    containers st2 = delete 1%positive (containers one_document_state) /\
    trace st2 =
      [EvDocumentReleased 1; EvDeleteFont 1 7; EvDeleteFont 1 9;
       EvContainerDeleted 1].
Proof.
  destruct (destroy_releases_document_before_container
              one_document_state 1 1 1
              (SharedDocument 1 (Document 1 [7; 9] None None))
              (CDocumentContainerCtor recording_vtable 0)
              eq_refl eq_refl eq_refl eq_refl)
    as (st1 & st2 & _ & _ & _ & _ & Hdestroy & Hheap & Htrace).
  exists st2. split_and!; [exact Hdestroy | exact Hheap | exact Htrace].
Defined.

Lemma create_from_string_outcomes_witness :
  lh_document_create_from_string EmptyString failing_createFromString
    (Some "<p>"%string) (Some recording_vtable) 0 None None empty_state =
    Some (None,
          State ∅ ∅ ∅ [] [EvContainerCreated 1; EvContainerDeleted 1]) /\
  lh_document_create_from_string EmptyString two_font_createFromString
    (Some "<p>"%string) (Some recording_vtable) 0 None None empty_state =
    Some (Some 1%positive,
          State {[ 1%positive := CDocumentContainerCtor recording_vtable 0 ]}
                {[ 1%positive := LhDocumentInternal 1 1 ]}
                {[ 1%positive := SharedDocument 1 (Document 1 [7; 9] None None) ]}
                [] [EvContainerCreated 1]).
Proof.
  split.
  - exact (proj2 (proj2 (proj2
      (create_from_string_outcomes EmptyString failing_createFromString
         "<p>"%string recording_vtable 0 None None empty_state [] None
         eq_refl)))).
  - exact (proj2 (proj2 (proj2
      (create_from_string_outcomes EmptyString two_font_createFromString
         "<p>"%string recording_vtable 0 None None empty_state []
         (Some (Document 1 [7; 9] None None)) eq_refl)))).
Defined.

Lemma get_element_by_point_accepts_every_candidate_witness :
  lh_document_get_element_by_point one_element_hit_test (Some 1%positive)
    (px 5) (px 5) (px 5) (px 5) hit_test_state = Some (Some text_element).
Proof.
  destruct (get_element_by_point_accepts_every_candidate
              one_element_hit_test hit_test_state 1
              (LhDocumentInternal 1 1)
              (SharedDocument 1 (Document 1 [] (Some text_element)
                                          (Some two_line_render_item)))
              (px 5) (px 5) (px 5) (px 5) eq_refl eq_refl)
    as (_ & _ & _ & Hdeepest).
  assert (Hengine : forall ri px0 py0 pcx pcy (filter : render_item -> bool),
             (forall candidate, filter candidate = true) ->
             one_element_hit_test ri px0 py0 pcx pcy filter = Some text_element).
  { intros ri px0 py0 pcx pcy filter Hfilter.
    unfold one_element_hit_test. rewrite Hfilter. reflexivity. }
  destruct (Hdeepest (fun _ _ _ _ _ el => el = Some text_element)
                     two_line_render_item Hengine eq_refl) as (el & Hcall & Hel).
  rewrite <- Hel. exact Hcall.
Defined.

(** ** The functions at work *)

(** A document created for a caller whose [delete_font] records its
    argument, then destroyed: both fonts are released through the
    container before the container goes, and nothing stays allocated. *)
Example create_then_destroy :
  (lh_document_create_from_string EmptyString two_font_createFromString
     (Some "<p>"%string) (Some recording_vtable) 0 None None empty_state
   ≫= λ '(handle, st), lh_document_destroy handle st) =
  Some (State ∅ ∅ ∅ [7; 9]
              [EvContainerCreated 1; EvDocumentReleased 1; EvDeleteFont 1 7;
               EvDeleteFont 1 9; EvContainerDeleted 1]).
Proof. reflexivity. Qed.

(** A stylesheet with text in it does reach the engine: here parsing
    appends 1 to the caller's state and style computation appends 2. *)
Example add_stylesheet_nonempty_reaches_engine :
  world <$> lh_document_add_stylesheet
              unit tt unit (fun _ _ => tt)
              (fun s _ _ _ _ d (w : caller) => (w ++ [1], (d, s)))
              id (fun _ d => d)
              (fun _ d (w : caller) => (w ++ [2], d))
              (Some 1%positive) (Some "p{}"%string) None None hit_test_state =
  Some [1; 2].
Proof. reflexivity. Qed.

(** * Further properties of the wrapper *)

(** ** Marshalling in the other direction *)

Lemma int_of_bool_of_int (i : Z) :
  int_of_bool (bool_of_int i) = i <-> i = 0 \/ i = 1.
Proof.
  unfold int_of_bool, bool_of_int.
  destruct (Z.eqb_spec i 0) as [-> | Hne]; simpl; lia.
Qed.

(** A C struct converted to the native type and back: [lh_position_t],
    [lh_size_t] and [lh_border_radiuses_t] come back as they were; an
    [lh_web_color_t] comes back with its four bytes as they were and its
    flag reduced to 0 or 1, so it comes back unchanged exactly when the flag
    was 0 or 1 already. *)
Theorem c_struct_round_trip :
  (forall p : lh_position_t, to_c_position (to_cpp_position p) = p) /\
  (forall s : lh_size_t, to_c_size (to_cpp_size s) = s) /\
  (forall br : lh_border_radiuses_t,
      to_c_border_radiuses (to_cpp_border_radiuses br) = br) /\
  (forall c : lh_web_color_t,
      to_c_web_color (to_cpp_web_color c) =
        LhWebColor (lh_web_color_red c) (lh_web_color_green c)
                   (lh_web_color_blue c) (lh_web_color_alpha c)
                   (if lh_web_color_is_current_color c =? 0 then 0 else 1)) /\
  (forall c : lh_web_color_t,
      to_c_web_color (to_cpp_web_color c) = c <->
      lh_web_color_is_current_color c = 0 \/ lh_web_color_is_current_color c = 1).
Proof.
  split_and!.
  - by intros [].
  - by intros [].
  - by intros [].
  - intros [r g b a cur]. unfold to_c_web_color, to_cpp_web_color; simpl.
    unfold int_of_bool, bool_of_int. by destruct (cur =? 0).
  - intros [r g b a cur]. unfold to_c_web_color, to_cpp_web_color; simpl.
    rewrite <- int_of_bool_of_int. split; [by intros [= ->] | by intros ->].
Qed.

(** The structs that come back through [from_c]: [lh_media_features_t]
    is delivered to the engine without loss, whatever the engine value
    held before; [lh_font_metrics_t] likewise, up to [draw_spaces], of
    which only zero or non-zero arrives. *)
Theorem from_c_keeps_the_struct :
  (forall (c : lh_media_features_t) (out : media_features),
      to_c_media_features (from_c_media_features c out) = c) /\
  (forall (c : lh_font_metrics_t) (out : font_metrics),
      to_c_font_metrics (from_c_font_metrics c out) =
        LhFontMetrics (lh_font_metrics_font_size c) (lh_font_metrics_height c)
                      (lh_font_metrics_ascent c) (lh_font_metrics_descent c)
                      (lh_font_metrics_x_height c) (lh_font_metrics_ch_width c)
                      (if lh_font_metrics_draw_spaces c =? 0 then 0 else 1)
                      (lh_font_metrics_sub_shift c)
                      (lh_font_metrics_super_shift c)) /\
  (forall (c : lh_font_metrics_t) (out out' : font_metrics),
      from_c_font_metrics c out = from_c_font_metrics c out') /\
  (forall (c : lh_media_features_t) (out out' : media_features),
      from_c_media_features c out = from_c_media_features c out').
Proof.
  split_and!.
  - by intros [] out.
  - intros [] out. unfold to_c_font_metrics, from_c_font_metrics; simpl.
    unfold int_of_bool, bool_of_int.
    by destruct (lh_font_metrics_draw_spaces0 =? 0).
  - reflexivity.
  - reflexivity.
Qed.

(** ** One-way conversions lose nothing *)

Lemma border_recovered (b : border) :
  Border (lh_border_width (to_c_border b))
         (enum_of_int (lh_border_style (to_c_border b)))
         (to_cpp_web_color (lh_border_color (to_c_border b))) = b.
Proof.
  destruct b as [w s c]. simpl.
  by rewrite enum_of_int_to_int, web_color_round_trip.
Qed.

(** [border], [borders] and [pointF] are converted to C structs only, never
    back.  Nothing is lost on the way: each conversion has a left inverse,
    so the C struct a callback receives determines the engine value. *)
Theorem one_way_conversions_lossless :
  (exists back : lh_border_t -> border,
      forall b : border, back (to_c_border b) = b) /\
  (exists back : lh_borders_t -> borders,
      forall b : borders, back (to_c_borders b) = b) /\
  (exists back : lh_point_t -> pointF,
      forall p : pointF, back (to_c_pointF p) = p).
Proof.
  pose (back_border := fun c : lh_border_t =>
    Border (lh_border_width c) (enum_of_int (lh_border_style c))
           (to_cpp_web_color (lh_border_color c))).
  split_and!.
  - exists back_border. apply border_recovered.
  - exists (fun c : lh_borders_t =>
              Borders (back_border (lh_borders_left c))
                      (back_border (lh_borders_top c))
                      (back_border (lh_borders_right c))
                      (back_border (lh_borders_bottom c))
                      (to_cpp_border_radiuses (lh_borders_radius c))).
    intros [l t r b rad]. unfold to_c_borders. cbn [lh_borders_left
      lh_borders_top lh_borders_right lh_borders_bottom lh_borders_radius].
    unfold back_border.
    by rewrite !border_recovered, border_radiuses_round_trip.
  - exists (fun c : lh_point_t => PointF (lh_point_x c) (lh_point_y c)).
    by intros [x y].
Qed.

(** ** The adapter with callbacks in the table *)

Section AdapterCallbacks.

Context {World : Type}.
Implicit Types (c : CDocumentContainer World) (w : World).

Lemma set_language_result_calls (calls : list (c_str * c_str))
    (init : string * string) :
  fold_left set_language_result calls init =
    match last calls with
    | Some r => (string_or_empty (fst r), string_or_empty (snd r))
    | None => init
    end.
Proof.
  revert init. induction calls as [|r calls IH] using rev_ind; intros init.
  - reflexivity.
  - rewrite fold_left_app, last_snoc. reflexivity.
Qed.

(** What the engine receives from a string callback is what the last
    setter call passed, a null pointer counting as the empty string.
    Without a setter call [transform_text] keeps the text and [import_css]
    yields the empty string: with an [import_css] callback in the table the
    text the engine passed in never survives the call. *)
Theorem string_callbacks_last_call_wins c w w' (calls : list c_str) :
  (forall cb text tt,
      vtable_transform_text (vtable c) = Some cb ->
      cb (user_data c) (Some text) (enum_to_int tt) w = (w', calls) ->
      CDocumentContainer_transform_text c text tt w =
        (w', match last calls with
             | Some r => string_or_empty r
             | None => text
             end)) /\
  (forall cb text url baseurl,
      vtable_import_css (vtable c) = Some cb ->
      cb (user_data c) (Some url) (Some baseurl) w = (w', calls) ->
      CDocumentContainer_import_css c text url baseurl w =
        (w', match last calls with
             | Some r => string_or_empty r
             | None => EmptyString
             end) /\
      forall text',
        CDocumentContainer_import_css c text' url baseurl w =
        CDocumentContainer_import_css c text url baseurl w).
Proof.
  split.
  - intros cb text tt Hcb Hrun. unfold CDocumentContainer_transform_text.
    by rewrite Hcb, Hrun, set_string_result_calls.
  - intros cb text url baseurl Hcb Hrun. unfold CDocumentContainer_import_css.
    rewrite Hcb, Hrun, set_string_result_calls. done.
Qed.

(** [get_language]: language and culture are the pair of the last setter
    call, each null pointer counting as the empty string; without a setter
    call both strings stay as they were. *)
Theorem get_language_last_call_wins c w w'
    (cb : void_ptr -> World -> World * list (c_str * c_str))
    (language culture : string) (calls : list (c_str * c_str)) :
  vtable_get_language (vtable c) = Some cb ->
  cb (user_data c) w = (w', calls) ->
  CDocumentContainer_get_language c language culture w =
    (w', match last calls with
         | Some r => (string_or_empty (fst r), string_or_empty (snd r))
         | None => (language, culture)
         end).
Proof.
  intros Hcb Hrun. unfold CDocumentContainer_get_language.
  by rewrite Hcb, Hrun, set_language_result_calls.
Qed.

(** The callbacks that fill a struct ([get_viewport],
    [get_media_features], [get_image_size]): the engine value after the
    call converts to exactly the struct the callback left, and a callback
    that leaves the struct as it received it leaves the engine value
    unchanged. *)
Theorem struct_callbacks_deliver c w w' :
  (forall cb viewport s,
      vtable_get_viewport (vtable c) = Some cb ->
      cb (user_data c) (to_c_position viewport) w = (w', s) ->
      exists viewport',
        CDocumentContainer_get_viewport c viewport w = (w', viewport') /\
        to_c_position viewport' = s /\
        (s = to_c_position viewport -> viewport' = viewport)) /\
  (forall cb media s,
      vtable_get_media_features (vtable c) = Some cb ->
      cb (user_data c) (to_c_media_features media) w = (w', s) ->
      exists media',
        CDocumentContainer_get_media_features c media w = (w', media') /\
        to_c_media_features media' = s /\
        (s = to_c_media_features media -> media' = media)) /\
  (forall cb src baseurl sz s,
      vtable_get_image_size (vtable c) = Some cb ->
      cb (user_data c) src baseurl (to_c_size sz) w = (w', s) ->
      exists sz',
        CDocumentContainer_get_image_size c src baseurl sz w = (w', sz') /\
        to_c_size sz' = s /\
        (s = to_c_size sz -> sz' = sz)).
Proof.
  split_and!.
  - intros cb viewport s Hcb Hrun. unfold CDocumentContainer_get_viewport.
    rewrite Hcb, Hrun. eexists. split_and!; [reflexivity | by destruct s |].
    intros ->. apply position_round_trip.
  - intros cb media s Hcb Hrun. unfold CDocumentContainer_get_media_features.
    rewrite Hcb, Hrun. eexists. split_and!; [reflexivity | by destruct s |].
    intros ->. apply media_features_round_trip.
  - intros cb src baseurl sz s Hcb Hrun.
    unfold CDocumentContainer_get_image_size.
    rewrite Hcb, Hrun. eexists. split_and!; [reflexivity | by destruct s |].
    intros ->. by destruct sz.
Qed.


End AdapterCallbacks.

Lemma string_callbacks_last_call_wins_witness :
  let c := CDocumentContainerCtor filling_vtable 0 in
  CDocumentContainer_transform_text c "abc" (EnumValue 1) [] = ([], "B"%string) /\
  CDocumentContainer_import_css c "old" "a.css" "http://h/" [] = ([], "p{}"%string) /\
  CDocumentContainer_import_css c "other" "a.css" "http://h/" [] =
    CDocumentContainer_import_css c "old" "a.css" "http://h/" [].
Proof.
  intros c.
  destruct (string_callbacks_last_call_wins c [] []
              [Some "a"%string; Some "B"%string]) as [Htr _].
  destruct (string_callbacks_last_call_wins c [] [] [Some "p{}"%string])
    as [_ Him].
  destruct (Him _ "old"%string "a.css"%string "http://h/"%string eq_refl eq_refl)
    as [Hcss Hsame].
  split_and!.
  - exact (Htr _ "abc"%string (EnumValue 1) eq_refl eq_refl).
  - exact Hcss.
  - exact (Hsame "other"%string).
Defined.

Lemma get_language_last_call_wins_witness :
  CDocumentContainer_get_language (CDocumentContainerCtor filling_vtable 0)
                                  "de" "DE" [] = ([], ("en"%string, EmptyString)).
Proof.
  exact (get_language_last_call_wins (CDocumentContainerCtor filling_vtable 0)
           [] [] _ "de"%string "DE"%string [(Some "en"%string, None)]
           eq_refl eq_refl).
Defined.

Lemma struct_callbacks_deliver_witness :
  let c := CDocumentContainerCtor filling_vtable 0 in
  let viewport := Position (px 0) (px 0) (px 800) (px 600) in
  (exists viewport',
      CDocumentContainer_get_viewport c viewport [] = ([], viewport') /\
      to_c_position viewport' = to_c_position viewport /\
      (to_c_position viewport = to_c_position viewport -> viewport' = viewport)) /\
  (exists media',
      CDocumentContainer_get_media_features c screen_features [] = ([], media') /\
      to_c_media_features media' = to_c_media_features screen_features /\
      (to_c_media_features screen_features = to_c_media_features screen_features ->
       media' = screen_features)) /\
  (exists sz',
      CDocumentContainer_get_image_size c (Some "a.png"%string) None
                                        (Size (px 0) (px 0)) [] = ([], sz') /\
      to_c_size sz' = LhSize (px 64) (px 48) /\
      (LhSize (px 64) (px 48) = to_c_size (Size (px 0) (px 0)) ->
       sz' = Size (px 0) (px 0))).
Proof.
  intros c viewport.
  destruct (struct_callbacks_deliver c [] []) as (Hvp & Hmf & Hsz).
  split_and!.
  - exact (Hvp _ viewport _ eq_refl eq_refl).
  - exact (Hmf _ screen_features _ eq_refl eq_refl).
  - exact (Hsz _ (Some "a.png"%string) None (Size (px 0) (px 0)) _
               eq_refl eq_refl).
Defined.


Lemma null_entry_leaves_arguments_witness :
  let c := CDocumentContainerCtor (@null_vtable caller) 0 in
  let w : caller := [3] in
  (forall descr fm, CDocumentContainer_create_font c descr fm w = (w, (0, fm))) /\
  (forall text tt, CDocumentContainer_transform_text c text tt w = (w, text)) /\
  (forall viewport, CDocumentContainer_get_viewport c viewport w = (w, viewport)) /\
  (forall language culture,
      CDocumentContainer_get_language c language culture w =
        (w, (language, culture))).
Proof.
  intros c w.
  destruct (null_entry_leaves_arguments c w)
    as (Hfont & _ & Htext & _ & Hviewport & _ & Hlanguage).
  split_and!.
  - apply Hfont. reflexivity.
  - apply Htext. reflexivity.
  - apply Hviewport. reflexivity.
  - apply Hlanguage. reflexivity.
Defined.

(** ** Index accessors inside the range *)

Section VectorsInRange.

Context {A : Type}.
Implicit Types (v : list A).

Lemma vector_size_int_small v :
  Z.of_nat (length v) < 2 ^ 31 -> vector_size_int v = Z.of_nat (length v).
Proof. intros H. apply static_cast_int_small. lia. Qed.

(** For a vector of fewer than [2^31] elements the bounds test and the
    read together are the list lookup. *)
Lemma checked_read_is_lookup v (i : nat) :
  Z.of_nat (length v) < 2 ^ 31 ->
  (if index_out_of_range v (Z.of_nat i) then None else vector_at v (Z.of_nat i))
  = v !! i.
Proof.
  intros Hlen. unfold vector_at. rewrite Nat2Z.id.
  destruct (index_out_of_range v (Z.of_nat i)) eqn:Hrange; [|done].
  apply index_out_of_range_true in Hrange.
  rewrite vector_size_int_small in Hrange by done.
  symmetry. apply lookup_ge_None. lia.
Qed.

End VectorsInRange.

(** For an index inside [[0, count)] the colour-point accessors of the
    three gradient kinds return the offset and the converted colour of the
    colour point stored at that index. *)
Theorem color_point_accessors_in_range :
  (forall (g : linear_gradient) (idx : Z),
      0 <= idx < lh_linear_gradient_color_points_count (Some g) ->
      exists cp,
        linear_gradient_color_points g !! Z.to_nat idx = Some cp /\
        lh_linear_gradient_color_point_offset (Some g) idx = color_point_offset cp /\
        lh_linear_gradient_color_point_color (Some g) idx =
          to_c_web_color (color_point_color cp)) /\
  (forall (g : radial_gradient) (idx : Z),
      0 <= idx < lh_radial_gradient_color_points_count (Some g) ->
      exists cp,
        radial_gradient_color_points g !! Z.to_nat idx = Some cp /\
        lh_radial_gradient_color_point_offset (Some g) idx = color_point_offset cp /\
        lh_radial_gradient_color_point_color (Some g) idx =
          to_c_web_color (color_point_color cp)) /\
  (forall (g : conic_gradient) (idx : Z),
      0 <= idx < lh_conic_gradient_color_points_count (Some g) ->
      exists cp,
        conic_gradient_color_points g !! Z.to_nat idx = Some cp /\
        lh_conic_gradient_color_point_offset (Some g) idx = color_point_offset cp /\
        lh_conic_gradient_color_point_color (Some g) idx =
          to_c_web_color (color_point_color cp)).
Proof.
  split_and!; intros g idx Hidx; simpl in Hidx;
    apply index_out_of_range_false in Hidx;
    destruct (vector_at_in_range _ _ Hidx) as [cp Hcp];
    exists cp; simpl; rewrite Hidx, Hcp; done.
Qed.

Lemma color_point_accessors_in_range_witness :
  exists cp,
    linear_gradient_color_points two_stop_gradient !! Z.to_nat 1 = Some cp /\
    lh_linear_gradient_color_point_offset (Some two_stop_gradient) 1 =
      color_point_offset cp /\
    lh_linear_gradient_color_point_color (Some two_stop_gradient) 1 =
      to_c_web_color (color_point_color cp).
Proof.
  destruct color_point_accessors_in_range as (Hlinear & _ & _).
  apply (Hlinear two_stop_gradient 1). vm_compute. split; [discriminate | reflexivity].
Defined.

(** For an element with fewer than [2^31] children the count is the number
    of children and [lh_element_child_at] is the lookup in the child list:
    the child at that place for every index below the count, null for
    every other index, negative ones included. *)
Theorem child_at_is_lookup (elem : element) :
  Z.of_nat (length (element_children elem)) < 2 ^ 31 ->
  lh_element_children_count (Some elem) = Z.of_nat (length (element_children elem)) /\
  (forall i : nat,
      lh_element_child_at (Some elem) (Z.of_nat i) = element_children elem !! i) /\
  (forall index : Z, index < 0 -> lh_element_child_at (Some elem) index = None).
Proof.
  intros Hlen. split_and!.
  - by apply vector_size_int_small.
  - intros i. by apply checked_read_is_lookup.
  - intros index Hneg. simpl. unfold index_out_of_range.
    by rewrite (proj2 (Z.ltb_lt index 0) Hneg).
Qed.

Lemma child_at_is_lookup_witness :
  lh_element_children_count (Some parent_element) = 2 /\
  lh_element_child_at (Some parent_element) 1 = Some two_line_element /\
  lh_element_child_at (Some parent_element) 2 = None /\
  lh_element_child_at (Some parent_element) (-1) = None.
Proof.
  destruct (child_at_is_lookup parent_element) as (Hcount & Hat & Hneg).
  { vm_compute. reflexivity. }
  split_and!.
  - exact Hcount.
  - exact (Hat 1%nat).
  - exact (Hat 2%nat).
  - apply Hneg. vm_compute. reflexivity.
Defined.

(** The inline boxes of an element with fewer than [2^31] of them: the
    count is their number, and reading the boxes one index after the other
    gives the stored boxes, each moved by the offset of the render item, in
    the stored order. *)
Theorem inline_boxes_enumerated (elem : element) (ri : render_item)
    (out : lh_position_t) :
  element_get_render_item elem = Some ri ->
  Z.of_nat (length (render_item_get_inline_boxes ri)) < 2 ^ 31 ->
  lh_element_get_inline_boxes_count (Some elem) =
    Z.of_nat (length (render_item_get_inline_boxes ri)) /\
  map (fun i : nat =>
         lh_element_get_inline_box_at (Some elem) (Z.of_nat i) (Some out))
      (seq 0 (length (render_item_get_inline_boxes ri))) =
  map (fun box => Some (apply_ri_offset ri box)) (render_item_get_inline_boxes ri).
Proof.
  intros Hri Hlen. split.
  - simpl. rewrite Hri. by apply vector_size_int_small.
  - apply list_eq. intros i. rewrite !list_lookup_fmap.
    destruct (render_item_get_inline_boxes ri !! i) as [box|] eqn:Hbox; simpl.
    + assert (Hi : (i < length (render_item_get_inline_boxes ri))%nat)
        by (by eapply lookup_lt_Some).
      rewrite lookup_seq_lt by done. simpl.
      pose proof (checked_read_is_lookup (render_item_get_inline_boxes ri) i Hlen)
        as Hread.
      rewrite Hbox in Hread. rewrite Hri.
      destruct (index_out_of_range (render_item_get_inline_boxes ri) (Z.of_nat i));
        [done|].
      by rewrite Hread.
    + apply lookup_ge_None in Hbox. rewrite lookup_seq_ge by done. done.
Qed.

Lemma inline_boxes_enumerated_witness :
  lh_element_get_inline_boxes_count (Some two_line_element) = 2 /\
  map (fun i : nat =>
         lh_element_get_inline_box_at (Some two_line_element) (Z.of_nat i)
                                      (Some lh_position_zero))
      (seq 0 2) =
  [Some (LhPosition (px 112) (px 220) (px 40) (px 15));
   Some (LhPosition (px 110) (px 235) (px 25) (px 15))].
Proof.
  exact (inline_boxes_enumerated two_line_element two_line_render_item
           lh_position_zero eq_refl eq_refl).
Defined.

(** ** Null handles and the lifetime of a handle *)

Section HandleProperties.

Context {World : Type}.
Implicit Types (st : state World) (c d h : loc).

Variable litehtml_master_css : string.
Variable document_createFromString :
  string -> loc -> string -> string ->
  gmap loc (CDocumentContainer World) -> World -> World * option document.
Variable css : Type.
Variable css_ctor : css.
Variable media_query_list : Type.
Variable parse_media_query_list : string -> document -> media_query_list.
Variable css_parse_css_stylesheet :
  css -> string -> string -> option (list media_query_list) ->
  gmap loc (CDocumentContainer World) -> document -> World ->
  World * (document * css).
Variable css_sort_selectors : css -> css.
Variable element_apply_stylesheet : css -> document -> document.
Variable element_compute_styles :
  gmap loc (CDocumentContainer World) -> document -> World -> World * document.
Variable render_item_get_element_by_point :
  render_item -> float -> float -> float -> float ->
  (render_item -> bool) -> option element.
Variable document_render :
  float -> gmap loc (CDocumentContainer World) -> document -> World ->
  World * (document * float).
Variable document_draw :
  uint_ptr -> float -> float -> option position ->
  gmap loc (CDocumentContainer World) -> document -> World -> World * document.
Variable document_width : document -> float.
Variable document_height : document -> float.
Variable document_append_children_from_string :
  element -> string -> bool ->
  gmap loc (CDocumentContainer World) -> document -> World -> World * document.
Variable document_on_mouse_over :
  float -> float -> float -> float -> list position ->
  gmap loc (CDocumentContainer World) -> document -> World ->
  World * (document * (bool * list position)).
Variable document_on_lbutton_down :
  float -> float -> float -> float -> list position ->
  gmap loc (CDocumentContainer World) -> document -> World ->
  World * (document * (bool * list position)).
Variable document_on_lbutton_up :
  float -> float -> float -> float -> list position ->
  gmap loc (CDocumentContainer World) -> document -> World ->
  World * (document * (bool * list position)).
Variable document_on_mouse_leave :
  list position ->
  gmap loc (CDocumentContainer World) -> document -> World ->
  World * (document * (bool * list position)).
Variable document_media_changed :
  gmap loc (CDocumentContainer World) -> document -> World ->
  World * (document * bool).
Variable element_parent : element -> option element.
Variable element_css_get_font : element -> uint_ptr.
Variable element_css_get_font_size : element -> float.
Variable element_css_get_text_align : element -> enum_value.
Variable element_css_line_height_computed_value : element -> float.
Variable element_get_text : element -> string -> string.

Local Abbreviation create_from_string :=
  (lh_document_create_from_string litehtml_master_css document_createFromString).
Local Abbreviation add_stylesheet :=
  (lh_document_add_stylesheet css css_ctor media_query_list
     parse_media_query_list css_parse_css_stylesheet css_sort_selectors
     element_apply_stylesheet element_compute_styles).
Local Abbreviation get_element_by_point :=
  (lh_document_get_element_by_point render_item_get_element_by_point).
Local Abbreviation render := (lh_document_render document_render).
Local Abbreviation draw := (lh_document_draw document_draw).
Local Abbreviation width := (lh_document_width document_width).
Local Abbreviation height := (lh_document_height document_height).
Local Abbreviation append_children :=
  (lh_document_append_children_from_string document_append_children_from_string).
Local Abbreviation on_mouse_over := (lh_document_on_mouse_over document_on_mouse_over).
Local Abbreviation on_lbutton_down :=
  (lh_document_on_lbutton_down document_on_lbutton_down).
Local Abbreviation on_lbutton_up := (lh_document_on_lbutton_up document_on_lbutton_up).
Local Abbreviation on_mouse_leave :=
  (lh_document_on_mouse_leave document_on_mouse_leave).
Local Abbreviation media_changed := (lh_document_media_changed document_media_changed).

(** With a null document handle no entry point reaches the engine or
    changes the state: the functions that return a number return zero,
    those that return a pointer return null, the others just return.
    Fragment insertion does the same for a null parent or a null markup
    string, and creation for a null markup string or a null table. *)
Theorem null_document_handle st :
  (forall max_width, render None max_width st = Some (float_zero, st)) /\
  (forall hdc x y clip, draw None hdc x y clip st = Some st) /\
  width None st = Some float_zero /\
  height None st = Some float_zero /\
  (forall css_text baseurl media,
      add_stylesheet None css_text baseurl media st = Some st) /\
  lh_document_root None st = Some None /\
  (forall doc parent html replace_existing,
      append_children None parent html replace_existing st = Some st /\
      append_children doc None html replace_existing st = Some st /\
      append_children doc parent None replace_existing st = Some st) /\
  (forall x y client_x client_y,
      on_mouse_over None x y client_x client_y st = Some (0, st) /\
      on_lbutton_down None x y client_x client_y st = Some (0, st) /\
      on_lbutton_up None x y client_x client_y st = Some (0, st) /\
      get_element_by_point None x y client_x client_y st = Some None) /\
  on_mouse_leave None st = Some (0, st) /\
  media_changed None st = Some (0, st) /\
  lh_document_destroy None st = Some st /\
  (forall html vtable user_data master_css user_styles,
      create_from_string None vtable user_data master_css user_styles st =
        Some (None, st) /\
      create_from_string html None user_data master_css user_styles st =
        Some (None, st)).
Proof.
  split_and!; try done.
  - intros doc parent html replace_existing. split_and!; [done | |].
    + by destruct doc.
    + by destruct doc, parent.
  - intros html vtable user_data master_css user_styles. split; [done|].
    by destruct html.
Qed.

(** With a null element no introspection function reaches the engine: the
    getters return zero or null, and the functions that report through an
    out-pointer or a callback leave the pointed-to struct and the caller's
    state alone; so they do for a null out-pointer or a null callback. *)
Theorem null_element_defaults :
  lh_element_parent element_parent None = None /\
  lh_element_children_count None = 0 /\
  (forall index, lh_element_child_at None index = None) /\
  lh_element_is_text None = 0 /\
  lh_element_get_font element_css_get_font None = 0 /\
  lh_element_get_font_size element_css_get_font_size None = float_zero /\
  lh_element_get_text_align element_css_get_text_align None = 0 /\
  lh_element_get_line_height element_css_line_height_computed_value None =
    float_zero /\
  lh_element_get_inline_boxes_count None = 0 /\
  (forall el pos,
      lh_element_get_placement None pos = pos /\
      lh_element_get_placement el None = None) /\
  (forall el index pos,
      lh_element_get_inline_box_at None index pos = pos /\
      lh_element_get_inline_box_at el index None = None) /\
  (forall el cb ctx (w : World),
      lh_element_get_text element_get_text None cb ctx w = w /\
      lh_element_get_text element_get_text el None ctx w = w).
Proof.
  split_and!; try done.
  - intros el pos. split; [done | by destruct el].
  - intros el index pos. split; [done | by destruct el].
  - intros el cb ctx w. split; [done | by destruct el].
Qed.

(** *** Entry points that work on a live document *)

Lemma store_document_same_objects st d (sd : shared_document) (doc : document)
    (w : World) :
  documents st !! d = Some sd ->
  same_objects st (set_world w (store_document d sd doc st)).
Proof.
  intros Hd. unfold same_objects. simpl. split_and!; try done.
  intros d'. destruct (decide (d = d')) as [<- | Hne].
  - by rewrite lookup_insert_eq, Hd.
  - by rewrite lookup_insert_ne.
Qed.

Lemma same_objects_refl st : same_objects st st.
Proof. by unfold same_objects. Qed.

(** Reduce a call on a handle to the engine's answer. *)
Ltac engine_call Hcall :=
  let Hh := fresh "Hh" in
  let Hd := fresh "Hd" in
  match type of Hcall with
  | context [internals ?st !! ?h] =>
      destruct (internals st !! h) as [?internal|] eqn:Hh; simpl in Hcall;
      [|discriminate]
  end;
  match type of Hcall with
  | context [documents ?st !! ?d] =>
      destruct (documents st !! d) as [?sd|] eqn:Hd; simpl in Hcall;
      [|discriminate]
  end;
  repeat match type of Hcall with
         | context [let '(_, _) := ?e in _] => destruct e as [? ?]
         end;
  simplify_eq;
  by apply store_document_same_objects.

(** Layout, painting, fragment insertion, stylesheet application, the mouse
    entry points and the media query keep the objects in place: whenever
    such a call returns, the containers, the wrappers and the trace are as
    before and every document is still there with the same owners.  Only
    creation and destruction allocate and free. *)
Theorem entry_points_keep_objects st st' :
  (forall doc max_width r, render doc max_width st = Some (r, st') ->
                           same_objects st st') /\
  (forall doc hdc x y clip, draw doc hdc x y clip st = Some st' ->
                            same_objects st st') /\
  (forall doc parent html replace_existing,
      append_children doc parent html replace_existing st = Some st' ->
      same_objects st st') /\
  (forall doc css_text baseurl media,
      add_stylesheet doc css_text baseurl media st = Some st' ->
      same_objects st st') /\
  (forall doc x y client_x client_y r,
      on_mouse_over doc x y client_x client_y st = Some (r, st') \/
      on_lbutton_down doc x y client_x client_y st = Some (r, st') \/
      on_lbutton_up doc x y client_x client_y st = Some (r, st') ->
      same_objects st st' /\ (r = 0 \/ r = 1)) /\
  (forall doc r,
      on_mouse_leave doc st = Some (r, st') \/ media_changed doc st = Some (r, st') ->
      same_objects st st' /\ (r = 0 \/ r = 1)).
Proof.
  split_and!.
  - intros [h|] max_width r Hcall; simpl in Hcall;
      [|injection Hcall as _ <-; apply same_objects_refl].
    engine_call Hcall.
  - intros [h|] hdc x y clip Hcall; simpl in Hcall;
      [|injection Hcall as <-; apply same_objects_refl].
    destruct clip; engine_call Hcall.
  - intros [h|] [elem|] [html|] replace_existing Hcall; simpl in Hcall;
      try (injection Hcall as <-; apply same_objects_refl).
    engine_call Hcall.
  - intros [h|] [css_text|] baseurl media Hcall; simpl in Hcall;
      try (injection Hcall as <-; apply same_objects_refl).
    destruct (first_byte_is_zero css_text);
      [injection Hcall as <-; apply same_objects_refl|].
    destruct (internals st !! h) as [internal|] eqn:Hh; simpl in Hcall;
      [|discriminate].
    destruct (documents st !! internal_doc internal) as [sd|] eqn:Hd;
      simpl in Hcall; [|discriminate].
    destruct (css_parse_css_stylesheet _ _ _ _ _ _ _) as [w [d0 sheet]].
    destruct (document_root d0);
      [destruct (element_compute_styles _ _ _) as [w1 d1]|];
      injection Hcall as <-; by apply (store_document_same_objects st).
  - intros [h|] x y client_x client_y r [Hcall | [Hcall | Hcall]];
      simpl in Hcall;
      try (injection Hcall as <- <-; split; [apply same_objects_refl | by left]).
    all: destruct (internals st !! h) as [internal|] eqn:Hh; simpl in Hcall;
      [|discriminate].
    all: destruct (documents st !! internal_doc internal) as [sd|] eqn:Hd;
      simpl in Hcall; [|discriminate].
    + destruct (document_on_mouse_over _ _ _ _ _ _ _ _) as [w [d0 [[] boxes]]];
        injection Hcall as <- <-;
        (split; [by apply store_document_same_objects | auto]).
    + destruct (document_on_lbutton_down _ _ _ _ _ _ _ _) as [w [d0 [[] boxes]]];
        injection Hcall as <- <-;
        (split; [by apply store_document_same_objects | auto]).
    + destruct (document_on_lbutton_up _ _ _ _ _ _ _ _) as [w [d0 [[] boxes]]];
        injection Hcall as <- <-;
        (split; [by apply store_document_same_objects | auto]).
  - intros [h|] r [Hcall | Hcall]; simpl in Hcall;
      try (injection Hcall as <- <-; split; [apply same_objects_refl | by left]).
    all: destruct (internals st !! h) as [internal|] eqn:Hh; simpl in Hcall;
      [|discriminate].
    all: destruct (documents st !! internal_doc internal) as [sd|] eqn:Hd;
      simpl in Hcall; [|discriminate].
    + destruct (document_on_mouse_leave _ _ _ _) as [w [d0 [[] boxes]]];
        injection Hcall as <- <-;
        (split; [by apply store_document_same_objects | auto]).
    + destruct (document_media_changed _ _ _) as [w [d0 []]];
        injection Hcall as <- <-;
        (split; [by apply store_document_same_objects | auto]).
Qed.

(** *** Creation, destruction and what lies between *)

(** The state a destruction of a live, paired handle leaves. *)
Lemma lh_document_destroy_alive
    st h d c (sd : shared_document) (obj : CDocumentContainer World) :
  internals st !! h = Some (LhDocumentInternal d c) ->
  documents st !! d = Some sd ->
  document_container (shared_object sd) = c ->
  containers st !! c = Some obj ->
  lh_document_destroy (Some h) st =
    Some (State (delete c (containers st)) (delete h (internals st))
                (release_documents d sd (documents st))
                (release_world obj sd (world st))
                (trace st ++ EvDocumentReleased d :: release_events sd
                         ++ [EvContainerDeleted c])).
Proof.
  intros Hh Hd Hpair Hc. subst c.
  unfold lh_document_destroy, delete_lh_document_internal. rewrite Hh. simpl.
  erewrite shared_ptr_release_alive by done. simpl.
  unfold delete_CDocumentContainer. simpl. rewrite Hc. simpl.
  unfold log_event, set_containers. simpl. by rewrite <- app_assoc.
Qed.

(** A document created and then destroyed leaves nothing behind: when the
    engine's document calls back into the container it was created with,
    destroying the handle that creation returned succeeds and the three
    heaps are exactly what they were before the creation.  The caller has
    seen one [delete_font] for every font of the document, after the
    release of the document and before the deletion of the container. *)
Theorem create_then_destroy_leaves_nothing
    (html : string) (vt : lh_container_vtable_t World) (ud : void_ptr)
    (master_css user_styles : c_str) st (w' : World) (doc : document) :
  let container := fresh (dom (containers st)) in
  let d := fresh (dom (documents st)) in
  document_createFromString html container
    (default litehtml_master_css master_css) (string_or_empty user_styles)
    (<[container := CDocumentContainerCtor vt ud]> (containers st))
    (world st) = (w', Some doc) ->
  document_container doc = container ->
  (create_from_string (Some html) (Some vt) ud master_css user_styles st
   ≫= λ '(handle, st1), lh_document_destroy handle st1) =
  Some (State (containers st) (internals st) (documents st)
              (teardown_world (CDocumentContainerCtor vt ud)
                              (document_fonts doc) w')
              (trace st ++ [EvContainerCreated container; EvDocumentReleased d]
                        ++ map (EvDeleteFont container) (document_fonts doc)
                        ++ [EvContainerDeleted container])).
Proof.
  intros container d Hengine Hpair.
  rewrite (create_from_string_created_state _ _ _ _ _ _ _ _ _ _ Hengine).
  unfold created_state. fold container. fold d.
  change (Some ?x ≫= ?f) with (f x). cbv beta iota.
  erewrite (lh_document_destroy_alive _ _ d container (SharedDocument 1 doc));
    [|apply lookup_insert_eq | apply lookup_insert_eq | exact Hpair
     |apply lookup_insert_eq].
  simpl. unfold release_documents, release_world, release_events. simpl.
  rewrite Hpair.
  rewrite !delete_insert_id by (apply not_elem_of_dom, is_fresh).
  by rewrite <- !app_assoc.
Qed.

(** After its destruction a handle is dangling: the wrapper and the
    container are gone from their heaps, and every entry point that
    dereferences the handle, a second destruction included, is a use of
    freed memory. *)
Theorem destroyed_handle_dangles
    st h d c (sd : shared_document) (obj : CDocumentContainer World) :
  internals st !! h = Some (LhDocumentInternal d c) ->
  documents st !! d = Some sd ->
  document_container (shared_object sd) = c ->
  containers st !! c = Some obj ->
  exists st' : state World,
    lh_document_destroy (Some h) st = Some st' /\
    internals st' !! h = None /\
    containers st' !! c = None /\
    lh_document_destroy (Some h) st' = None /\
    lh_document_root (Some h) st' = None /\
    width (Some h) st' = None /\
    height (Some h) st' = None /\
    media_changed (Some h) st' = None /\
    on_mouse_leave (Some h) st' = None /\
    (forall max_width, render (Some h) max_width st' = None) /\
    (forall hdc x y clip, draw (Some h) hdc x y clip st' = None) /\
    (forall x y client_x client_y,
        get_element_by_point (Some h) x y client_x client_y st' = None /\
        on_mouse_over (Some h) x y client_x client_y st' = None /\
        on_lbutton_down (Some h) x y client_x client_y st' = None /\
        on_lbutton_up (Some h) x y client_x client_y st' = None).
Proof.
  intros Hh Hd Hpair Hc.
  eexists. split; [by apply lh_document_destroy_alive|].
  assert (Hgone : delete h (internals st) !! h = None) by apply lookup_delete_eq.
  split_and!; simpl; try (apply lookup_delete_eq); by rewrite Hgone.
Qed.

(** Optional strings: a null base URL is an empty base URL and a null media
    string is an empty media string for [lh_document_add_stylesheet]; null
    user styles are empty user styles and a null master stylesheet is the
    engine's own master stylesheet for [lh_document_create_from_string]. *)
Theorem optional_strings_defaults (st : state World) :
  (forall (doc : option loc) (css_text media : c_str),
      add_stylesheet doc css_text None media st =
      add_stylesheet doc css_text (Some EmptyString) media st) /\
  (forall doc css_text baseurl,
      add_stylesheet doc css_text baseurl None st =
      add_stylesheet doc css_text baseurl (Some EmptyString) st) /\
  (forall html vtable user_data master_css,
      create_from_string html vtable user_data master_css None st =
      create_from_string html vtable user_data master_css (Some EmptyString) st) /\
  (forall html vtable user_data user_styles,
      create_from_string html vtable user_data None user_styles st =
      create_from_string html vtable user_data (Some litehtml_master_css)
                         user_styles st).
Proof. split_and!; reflexivity. Qed.

End HandleProperties.

Lemma entry_points_keep_objects_witness :
  exists st' : state caller,
    lh_document_render echo_render (Some 1%positive) (px 800) hit_test_state =
      Some (px 800, st') /\
    lh_document_on_mouse_over idle_mouse (Some 1%positive)
                              (px 5) (px 5) (px 5) (px 5) hit_test_state =
      Some (1, st') /\
    same_objects hit_test_state st'.
Proof.
  eexists. split; [reflexivity|]. split; [reflexivity|].
  refine (proj1 (entry_points_keep_objects
                   unit tt unit (fun _ _ => tt) idle_parse_css id
                   (fun _ d => d) idle_compute_styles
                   echo_render idle_draw idle_append idle_mouse idle_mouse
                   idle_mouse idle_mouse_leave idle_media_changed
                   hit_test_state _)
                (Some 1%positive) (px 800) (px 800) eq_refl).
Defined.

Lemma create_then_destroy_leaves_nothing_witness :
  (lh_document_create_from_string EmptyString two_font_createFromString
     (Some "<p>"%string) (Some recording_vtable) 0 None None one_document_state
   ≫= λ '(handle, st1), lh_document_destroy handle st1) =
  Some (State (containers one_document_state) (internals one_document_state)
              (documents one_document_state) [7; 9]
              [EvContainerCreated 2; EvDocumentReleased 2; EvDeleteFont 2 7;
               EvDeleteFont 2 9; EvContainerDeleted 2]).
Proof.
  exact (create_then_destroy_leaves_nothing
           EmptyString two_font_createFromString "<p>"%string recording_vtable 0
           None None one_document_state []
           (Document 2 [7; 9] None None) eq_refl eq_refl).
Defined.

Lemma destroyed_handle_dangles_witness :
  exists st' : state caller,
    lh_document_destroy (Some 1%positive) one_document_state = Some st' /\
    lh_document_destroy (Some 1%positive) st' = None /\
    lh_document_render echo_render (Some 1%positive) (px 800) st' = None.
Proof.
  destruct (destroyed_handle_dangles
              one_element_hit_test echo_render idle_draw
              (fun _ => px 0) (fun _ => px 0)
              idle_mouse idle_mouse idle_mouse idle_mouse_leave
              idle_media_changed
              one_document_state 1 1 1
              (SharedDocument 1 (Document 1 [7; 9] None None))
              (CDocumentContainerCtor recording_vtable 0)
              eq_refl eq_refl eq_refl eq_refl)
    as (st' & Hdestroy & _ & _ & Hagain & _ & _ & _ & _ & _ & Hrender & _).
  exists st'. split_and!; [exact Hdestroy | exact Hagain | exact (Hrender (px 800))].
Defined.

(** ** The three decoration-thickness accessors together *)

(** For every descriptor pointer, null included, the three accessors of
    [decoration_thickness] agree: either the thickness reads as predefined
    (flag 1) and its value reads as [0.0f], or it reads as a length (flag 0)
    and its predefined code reads as 0.  A null descriptor is of the first
    kind, with predefined code 0. *)
Theorem decoration_thickness_accessors_agree (fd : option font_description) :
  (lh_font_description_decoration_thickness_is_predefined fd = 1 /\
   lh_font_description_decoration_thickness_value fd = float_zero) \/
  (lh_font_description_decoration_thickness_is_predefined fd = 0 /\
   lh_font_description_decoration_thickness_predef fd = 0).
Proof.
  destruct fd as [d|]; simpl; [|by left].
  destruct (css_length_is_predefined (font_description_decoration_thickness d));
    [by left | by right].
Qed.
